(** * Agent execution engine: a shallow embedding

    This development embeds the control flow of [agents/base_agent.py] and
    [agents/orchestrator_agent.py]: tool registration, the tool-calling
    conversation loop of [generate_with_tools], the [run] boundary of an
    agent, [collaborate], and the orchestrator's synthesis and workflow
    dispatch.

    Modelling conventions.
    - Python dictionaries are [gmap]s; Python lists are [list]s.
    - A call that may raise returns an [Outcome]: [Returns v] or [Raises e].
    - [self.model] is the generative model; its chat sessions are modelled
      by a function from the messages sent so far to the next reply (or to
      the exception raised by [send_message]).
    - The [while] loop of [generate_with_tools] has no turn bound in the
      source; the embedding takes a turn budget and reports [OutOfFuel]
      when it is exhausted.
    - Dictionaries shared with the caller (the [context] of a workflow
      step) live in a store indexed by references, so that in-place updates
      are visible through every alias. *)

From Stdlib Require Import QArith.
From stdpp Require Import gmap strings list fin_maps pretty.

Close Scope Q_scope.

Open Scope string_scope.
Open Scope list_scope.

(** ** Values and exceptions *)

(** Dynamically typed values that cross the tool and context interfaces. *)
#[warnings="-register-all"] Inductive PyVal :=
  | PyNone
  | PyBool (b : bool)
  | PyInt (z : Z)
  | PyFloat (q : Q)
  | PyStr (s : string)
  | PyList (l : list PyVal)
  | PyDict (d : list (string * PyVal)).

(** An exception object; [str e] is the text Python's [str(e)] yields. *)
Record PyException := { exc_class : string; exc_text : string }.

Definition str (e : PyException) : string := exc_text e.

Inductive Outcome (A : Type) :=
  | Returns (a : A)
  | Raises (e : PyException).
Arguments Returns {A} a.
Arguments Raises {A} e.

(** ** Data model of [base_agent.py] *)

Inductive AgentStatus := IDLE | RUNNING | COMPLETED | FAILED.

Record AgentConfig := {
  name : string;
  model_name : string;
  system_prompt : string;
  temperature : Q;
  project_id : option string
}.

(** One entry of [AgentResponse.tool_calls]:
    [{"function": ..., "args": ..., "result": ...}]. *)
Record ToolCallRecord := {
  tc_function : string;
  tc_args : list (string * PyVal);
  tc_result : PyVal
}.

Record AgentResponse := {
  agent_name : string;
  content : string;
  status : AgentStatus;
  metadata : gmap string PyVal;
  tool_calls : list ToolCallRecord;
  error : option string
}.

(** ** The SDK objects the agent handles *)

Record FunctionDeclaration := {
  fd_name : string;
  fd_description : string;
  fd_parameters : PyVal
}.

Record Tool := { function_declarations : list FunctionDeclaration }.

Record FunctionCall := {
  fc_name : string;
  fc_args : list (string * PyVal)
}.

(** A part of a model reply. [hasattr(part, 'function_call')] holds exactly
    for [PartFunctionCall]. *)
Inductive Part :=
  | PartFunctionCall (fc : FunctionCall)
  | PartText (t : string).

Record Candidate := { parts : list Part }.

(** [text] is [Some t] when the reply object has a [text] attribute;
    [repr] is what [str(response)] yields. *)
Record GenerationResponse := {
  candidates : list Candidate;
  text : option string;
  repr : string
}.

(** What the agent sends through [chat.send_message]. *)
Inductive Message :=
  | MsgPrompt (prompt : string) (tools : option (list Tool))
  | MsgFunctionResponse (fname : string) (response : PyVal).

(** The generative model: the reply of a chat session to the messages sent
    in it so far (the latest last). [start_chat] only creates the session;
    the calls that reach the model are those of [send_message]. *)
Abbreviation GenerativeModel :=
  (list Message -> Outcome GenerationResponse) (only parsing).

Abbreviation ToolFunction :=
  (list (string * PyVal) -> Outcome PyVal) (only parsing).

(** The mutable fields of a [BaseAgent] instance. *)
Record AgentState := {
  config : AgentConfig;
  agent_status : AgentStatus;
  tools : list Tool;
  tool_functions : gmap string ToolFunction;
  model : option GenerativeModel
}.

Definition set_status (s : AgentStatus) (st : AgentState) : AgentState :=
  {| config := config st; agent_status := s; tools := tools st;
     tool_functions := tool_functions st; model := model st |}.

(** ** [_handle_tool_call] *)

Definition error_dict (msg : string) : PyVal := PyDict [("error", PyStr msg)].

Definition _handle_tool_call (st : AgentState) (function_call : FunctionCall)
  : PyVal :=
  let function_name := fc_name function_call in
  let function_args := fc_args function_call in
  match tool_functions st !! function_name with
  | None => error_dict ("Tool not found: " +:+ function_name)
  | Some f =>
      match f function_args with
      | Returns result => result
      | Raises e => error_dict ("Tool execution failed: " +:+ str e)
      end
  end.

(** ** [generate_with_tools] *)

(** [chat.send_message]: the message joins the session's history and the
    model answers the whole history. *)
Definition send_message (gm : GenerativeModel) (chat : list Message)
    (msg : Message) : list Message * Outcome GenerationResponse :=
  let chat' := chat ++ [msg] in (chat', gm chat').

(** How the body of the [try] block ends. The two raising cases keep the
    value the local variable [tool_calls] had when the exception left the
    block. *)
Inductive LoopOutcome :=
  | Finished (response : GenerationResponse) (tool_calls : list ToolCallRecord)
  | GatewayRaised (e : PyException) (tool_calls : list ToolCallRecord)
  | IndexRaised (tool_calls : list ToolCallRecord)
  | OutOfFuel.

Definition index_error : PyException :=
  {| exc_class := "IndexError"; exc_text := "list index out of range" |}.

Definition tool_call_record (fc : FunctionCall) (tool_result : PyVal)
  : ToolCallRecord :=
  {| tc_function := fc_name fc; tc_args := fc_args fc;
     tc_result := tool_result |}.

Definition function_response (fc : FunctionCall) (tool_result : PyVal)
  : Message :=
  MsgFunctionResponse (fc_name fc) (PyDict [("result", tool_result)]).

(** The [while response.candidates[0].content.parts:] loop. Each test of
    the loop condition costs one unit of the budget. *)
Fixpoint tool_loop (fuel : nat) (st : AgentState) (gm : GenerativeModel)
    (chat : list Message) (response : GenerationResponse)
    (tool_calls : list ToolCallRecord) : list Message * LoopOutcome :=
  match fuel with
  | O => (chat, OutOfFuel)
  | S fuel' =>
      match candidates response with
      | [] => (chat, IndexRaised tool_calls)
      | c :: _ =>
          match parts c with
          | [] => (chat, Finished response tool_calls)
          | PartText _ :: _ => (chat, Finished response tool_calls)
          | PartFunctionCall function_call :: _ =>
              let tool_result := _handle_tool_call st function_call in
              let tool_calls' :=
                tool_calls ++ [tool_call_record function_call tool_result] in
              match send_message gm chat
                      (function_response function_call tool_result) with
              | (chat', Raises e) => (chat', GatewayRaised e tool_calls')
              | (chat', Returns response') =>
                  tool_loop fuel' st gm chat' response' tool_calls'
              end
          end
      end
  end.

(** The body of the [try] block: the first message, then the loop. *)
Definition first_message (st : AgentState) (prompt : string) : Message :=
  match tools st with
  | [] => MsgPrompt prompt None
  | _ :: _ => MsgPrompt prompt (Some (tools st))
  end.

Definition generate_try (fuel : nat) (st : AgentState) (gm : GenerativeModel)
    (prompt : string) : list Message * LoopOutcome :=
  let chat := [] in
  match send_message gm chat (first_message st prompt) with
  | (chat', Raises e) => (chat', GatewayRaised e [])
  | (chat', Returns response) => tool_loop fuel st gm chat' response []
  end.

Definition failed_response (st : AgentState) (msg : string) : AgentResponse :=
  {| agent_name := name (config st); content := ""; status := FAILED;
     metadata := ∅; tool_calls := []; error := Some msg |}.

Definition generation_metadata (st : AgentState) : gmap string PyVal :=
  <["temperature" := PyFloat (temperature (config st))]>
    (<["model" := PyStr (model_name (config st))]> ∅).

(** [generate_with_tools] returns the messages it sent to the model and,
    unless the budget ran out, the response. The [except] branch builds
    its response without a [tool_calls] argument. *)
Definition generate_with_tools (fuel : nat) (st : AgentState)
    (prompt : string) : list Message * option AgentResponse :=
  match model st with
  | None => ([], Some (failed_response st "Model not initialized"))
  | Some gm =>
      match generate_try fuel st gm prompt with
      | (sent, Finished response tool_calls) =>
          let content :=
            match text response with
            | Some t => t
            | None => repr response
            end in
          (sent,
           Some {| agent_name := name (config st); content := content;
                   status := COMPLETED;
                   metadata := generation_metadata st;
                   tool_calls := tool_calls; error := None |})
      | (sent, GatewayRaised e _) => (sent, Some (failed_response st (str e)))
      | (sent, IndexRaised _) =>
          (sent, Some (failed_response st (str index_error)))
      | (sent, OutOfFuel) => (sent, None)
      end
  end.

(** ** [add_tool] *)

(** [FunctionDeclaration(name=..., description=..., parameters=...)] is a
    constructor of the SDK: it checks the schema and may raise. It is a
    parameter of the embedding. *)
Abbreviation DeclarationConstructor :=
  (string -> string -> PyVal -> Outcome FunctionDeclaration) (only parsing).

(** When the [try] block of [add_tool] raises, the [except] branch only
    logs: the agent is left as it was. Otherwise the schema is appended to
    [self.tools] and the callable is stored under the tool's name. *)
Definition add_tool (new_declaration : DeclarationConstructor)
    (st : AgentState) (tool_name tool_description : string)
    (tool_function : ToolFunction) (parameters : PyVal) : AgentState :=
  match new_declaration tool_name tool_description parameters with
  | Raises _ => st
  | Returns function_declaration =>
      let tool := {| function_declarations := [function_declaration] |} in
      {| config := config st; agent_status := agent_status st;
         tools := tools st ++ [tool];
         tool_functions := <[tool_name := tool_function]> (tool_functions st);
         model := model st |}
  end.

(** A registration request: the four arguments of one [add_tool] call. *)
Record Registration := {
  reg_name : string;
  reg_description : string;
  reg_function : ToolFunction;
  reg_parameters : PyVal
}.

Definition register (new_declaration : DeclarationConstructor)
    (st : AgentState) (r : Registration) : AgentState :=
  add_tool new_declaration st (reg_name r) (reg_description r)
    (reg_function r) (reg_parameters r).

Definition accepted (new_declaration : DeclarationConstructor)
    (r : Registration) : Prop :=
  exists fd,
    new_declaration (reg_name r) (reg_description r) (reg_parameters r)
    = Returns fd.

(** ** [run] and its overridable methods *)

(** The methods a subclass supplies or overrides. They read the agent and
    their arguments, and either return or raise. The [context] argument is
    [None] or a dictionary, given by its contents at the time of the
    call. *)
Record AgentMethods := {
  preprocess_task :
    AgentState -> string -> option (gmap string PyVal) -> Outcome string;
  process_task :
    AgentState -> string -> option (gmap string PyVal) ->
    Outcome AgentResponse;
  postprocess_response :
    AgentState -> AgentResponse -> Outcome AgentResponse
}.

Record BaseAgent := {
  self : AgentState;
  methods : AgentMethods
}.

(** The base-class definitions of the two hooks. *)
Definition base_preprocess_task (st : AgentState) (task : string)
    (context : option (gmap string PyVal)) : Outcome string :=
  Returns task.

Definition base_postprocess_response (st : AgentState)
    (response : AgentResponse) : Outcome AgentResponse :=
  Returns response.

Definition with_status (s : AgentStatus) (ag : BaseAgent) : BaseAgent :=
  {| self := set_status s (self ag); methods := methods ag |}.

(** The [try] block of [run], up to the value of [final_response]. *)
Definition run_try (ag : BaseAgent) (task : string)
    (context : option (gmap string PyVal)) : Outcome AgentResponse :=
  let st := set_status RUNNING (self ag) in
  match preprocess_task (methods ag) st task context with
  | Raises e => Raises e
  | Returns processed_task =>
      match process_task (methods ag) st processed_task context with
      | Raises e => Raises e
      | Returns response => postprocess_response (methods ag) st response
      end
  end.

Definition run (ag : BaseAgent) (task : string)
    (context : option (gmap string PyVal)) : BaseAgent * AgentResponse :=
  match run_try ag task context with
  | Returns final_response => (with_status COMPLETED ag, final_response)
  | Raises e =>
      let error_msg := "Agent execution failed: " +:+ str e in
      (with_status FAILED ag, failed_response (self ag) error_msg)
  end.

(** ** [collaborate] *)

Definition newline : string := String (Ascii.ascii_of_nat 10) EmptyString.

Definition collaboration_task (previous task : string) : string :=
  "Build upon this previous work:" +:+ newline +:+ previous +:+ newline
  +:+ newline +:+ "Task: " +:+ task.

Definition collaboration_context (previous_agent previous_response : string)
  : gmap string PyVal :=
  <["previous_response" := PyStr previous_response]>
    (<["previous_agent" := PyStr previous_agent]> ∅).

(** Both agents after the call, and the returned dictionary. The dictionary
    display lists this agent's entry first and the other agent's second, so
    the second is stored last. The two agents are distinct objects. *)
Definition collaborate (me other_agent : BaseAgent) (task : string)
  : BaseAgent * BaseAgent * gmap string AgentResponse :=
  let '(me', my_response) := run me task None in
  let collaboration_context :=
    collaboration_context (name (config (self me))) (content my_response) in
  let '(other', other_response) :=
    run other_agent (collaboration_task (content my_response) task)
      (Some collaboration_context) in
  (me', other',
   <[name (config (self other_agent)) := other_response]>
     (<[name (config (self me)) := my_response]> ∅)).

(** ** The orchestrator ([orchestrator_agent.py]) *)

Record OrchestratorAgent := {
  base : AgentState;
  registered_agents : gmap string BaseAgent
}.

Definition register_agent (orch : OrchestratorAgent) (agent : BaseAgent)
  : OrchestratorAgent :=
  {| base := base orch;
     registered_agents :=
       <[name (config (self agent)) := agent]> (registered_agents orch) |}.

(** *** [_synthesize_results] *)

(** The lines [enumerate(results, 1)] adds to the prompt. *)
Fixpoint synthesis_entries (i : nat) (results : list AgentResponse) : string :=
  match results with
  | [] => ""
  | result :: rest =>
      "Agent " +:+ pretty i +:+ " (" +:+ agent_name result +:+ "):" +:+ newline
      +:+ content result +:+ newline +:+ newline
      +:+ synthesis_entries (S i) rest
  end.

Definition synthesis_instructions : string :=
  newline
  +:+ "Please synthesize these results into a comprehensive, coherent response that:"
  +:+ newline +:+ "1. Combines insights from all agents"
  +:+ newline +:+ "2. Resolves any contradictions"
  +:+ newline +:+ "3. Provides a complete answer to the original task"
  +:+ newline +:+ "4. Highlights key findings and recommendations"
  +:+ newline.

Definition synthesis_prompt (results : list AgentResponse)
    (original_task : string) : string :=
  "Original Task: " +:+ original_task +:+ newline +:+ newline
  +:+ "Results from specialized agents:" +:+ newline +:+ newline
  +:+ synthesis_entries 1 results
  +:+ synthesis_instructions.

Definition add_contributors (results : list AgentResponse)
    (synthesized : AgentResponse) : AgentResponse :=
  {| agent_name := agent_name synthesized;
     content := content synthesized;
     status := status synthesized;
     metadata :=
       <["num_agents" := PyInt (Z.of_nat (length results))]>
         (<["contributing_agents" :=
              PyList ((fun r => PyStr (agent_name r)) <$> results)]>
            (metadata synthesized));
     tool_calls := tool_calls synthesized;
     error := error synthesized |}.

(** The messages sent to the model during the call, and the response
    (absent only when the turn budget of the conversation ran out). *)
Definition _synthesize_results (fuel : nat) (orch : OrchestratorAgent)
    (results : list AgentResponse) (original_task : string)
  : list Message * option AgentResponse :=
  match results with
  | [] =>
      ([], Some {| agent_name := name (config (base orch));
                   content := "No results to synthesize";
                   status := COMPLETED; metadata := ∅; tool_calls := [];
                   error := None |})
  | _ :: _ =>
      let '(sent, synthesized) :=
        generate_with_tools fuel (base orch)
          (synthesis_prompt results original_task) in
      (sent, add_contributors results <$> synthesized)
  end.

(** *** Workflows *)

(** A step dictionary: its ["agent_name"] and ["task"] entries, which the
    docstrings of the workflows require, and its ["context"] entry when it
    has one. The context is a dictionary object of the caller, named by
    its reference in the store. *)
Record TaskInfo := {
  ti_agent_name : string;
  ti_task : string;
  ti_context : option nat
}.

(** One call [agent.run(task, context)] made by a workflow: the index of
    the step, the arguments as passed, and the response. The list of
    dispatches is kept for specification only. *)
Record Dispatch := {
  d_index : nat;
  d_agent_name : string;
  d_task : string;
  d_context : gmap string PyVal;
  d_response : AgentResponse
}.

(** The state a workflow loop works on: the registered agents (a run
    updates the agent's status), the caller's dictionaries, the local
    list [results], and the dispatches made so far. *)
Record Workflow := {
  wf_agents : gmap string BaseAgent;
  wf_store : gmap nat (gmap string PyVal);
  wf_results : list AgentResponse;
  wf_dispatched : list Dispatch
}.

(** [for i, x in enumerate(xs): body], counting from [i], as a
    transformation of the loop's state. *)
Fixpoint for_enumerate {A S : Type} (body : nat -> A -> S -> S) (i : nat)
    (xs : list A) (s : S) : S :=
  match xs with
  | [] => s
  | x :: rest => for_enumerate body (Datatypes.S i) rest (body i x s)
  end.

(** [task_info.get("context", {})]: the caller's dictionary, or a new
    empty one. A reference of a step is meant to be allocated; one that is
    not reads as an empty dictionary. *)
Definition get_context (store : gmap nat (gmap string PyVal))
    (task_info : TaskInfo) : gmap string PyVal :=
  match ti_context task_info with
  | Some r => default ∅ (store !! r)
  | None => ∅
  end.

(** [[r.content for r in results]] *)
Definition contents (results : list AgentResponse) : PyVal :=
  PyList ((fun r => PyStr (content r)) <$> results).

(** The effect of an assignment into [context] on the store: a dictionary
    of the caller is updated in place; a new one is not in the store. *)
Definition write_context (store : gmap nat (gmap string PyVal))
    (task_info : TaskInfo) (context : gmap string PyVal)
  : gmap nat (gmap string PyVal) :=
  match ti_context task_info with
  | Some r => <[r := context]> store
  | None => store
  end.

(** The body of the loop of [execute_sequential_workflow]. *)
Definition sequential_step (i : nat) (task_info : TaskInfo) (w : Workflow)
  : Workflow :=
  let agent_name := ti_agent_name task_info in
  let task := ti_task task_info in
  let context := get_context (wf_store w) task_info in
  match wf_agents w !! agent_name with
  | None => w
  | Some agent =>
      let '(store, context) :=
        if (0 <? i)%nat then
          let context' :=
            <["previous_results" := contents (wf_results w)]> context in
          (write_context (wf_store w) task_info context', context')
        else (wf_store w, context) in
      let '(agent', response) := run agent task (Some context) in
      {| wf_agents := <[agent_name := agent']> (wf_agents w);
         wf_store := store;
         wf_results := wf_results w ++ [response];
         wf_dispatched :=
           wf_dispatched w
           ++ [{| d_index := i; d_agent_name := agent_name; d_task := task;
                  d_context := context; d_response := response |}] |}
  end.

Definition start_workflow (orch : OrchestratorAgent)
    (store : gmap nat (gmap string PyVal)) : Workflow :=
  {| wf_agents := registered_agents orch; wf_store := store;
     wf_results := []; wf_dispatched := [] |}.

(** The returned list is [wf_results]; the other fields are the state the
    call leaves behind. *)
Definition execute_sequential_workflow (orch : OrchestratorAgent)
    (store : gmap nat (gmap string PyVal)) (tasks : list TaskInfo)
  : Workflow :=
  for_enumerate sequential_step 0 tasks (start_workflow orch store).

(** The body of the loop of [execute_parallel_workflow]; the position [i]
    of the step is used for the dispatch entry only. *)
Definition parallel_step (i : nat) (task_info : TaskInfo) (w : Workflow)
  : Workflow :=
  let agent_name := ti_agent_name task_info in
  let task := ti_task task_info in
  let context := get_context (wf_store w) task_info in
  match wf_agents w !! agent_name with
  | None => w
  | Some agent =>
      let '(agent', response) := run agent task (Some context) in
      {| wf_agents := <[agent_name := agent']> (wf_agents w);
         wf_store := wf_store w;
         wf_results := wf_results w ++ [response];
         wf_dispatched :=
           wf_dispatched w
           ++ [{| d_index := i; d_agent_name := agent_name; d_task := task;
                  d_context := context; d_response := response |}] |}
  end.

Definition execute_parallel_workflow (orch : OrchestratorAgent)
    (store : gmap nat (gmap string PyVal)) (tasks : list TaskInfo)
  : Workflow :=
  for_enumerate parallel_step 0 tasks (start_workflow orch store).

(** ** Construction of an agent ([__init__]) *)

(** The fields of [AgentConfig] that only the construction reads. *)
Record ModelSettings := {
  max_tokens : Z;
  top_p : Q;
  top_k : Z;
  timeout : Z;
  location : string
}.

Record GenerationConfig := {
  gc_temperature : Q;
  gc_top_p : Q;
  gc_top_k : Z;
  gc_max_output_tokens : Z
}.

(** What the construction reads from outside the agent: two environment
    variables, and the SDK calls [vertexai.init], [GenerationConfig(...)]
    and [GenerativeModel(...)], each of which may raise. *)
Record Platform := {
  env_PROJECT_ID : option string;
  env_LOCATION : option string;
  vertexai_init : string -> string -> Outcome unit;
  new_generation_config : Q -> Q -> Z -> Z -> Outcome GenerationConfig;
  new_generative_model :
    string -> GenerationConfig -> string ->
    Outcome (list Message -> Outcome GenerationResponse)
}.

(** Truth value of an optional string: [None] and [""] are false. *)
Definition truthy (s : option string) : bool :=
  match s with
  | Some (String _ _) => true
  | _ => false
  end.

(** [a or b] on optional strings. *)
Definition py_or (a b : option string) : option string :=
  if truthy a then a else b.

(** [_initialize_vertexai]: the value it leaves in
    [self.vertex_initialized]. *)
Definition _initialize_vertexai (platform : Platform) (cfg : AgentConfig)
    (settings : ModelSettings) : bool :=
  let project_id := py_or (project_id cfg) (env_PROJECT_ID platform) in
  let location :=
    py_or (Some (location settings))
      (Some (default "us-central1" (env_LOCATION platform))) in
  match project_id with
  | Some (String a p) =>
      match vertexai_init platform (String a p) (default "" location) with
      | Returns _ => true
      | Raises _ => false
      end
  | _ => false
  end.

(** [_initialize_model]: the value it leaves in [self.model]. *)
Definition _initialize_model (platform : Platform) (cfg : AgentConfig)
    (settings : ModelSettings) (vertex_initialized : bool)
  : option (list Message -> Outcome GenerationResponse) :=
  if vertex_initialized then
    match new_generation_config platform (temperature cfg) (top_p settings)
            (top_k settings) (max_tokens settings) with
    | Raises _ => None
    | Returns generation_config =>
        match new_generative_model platform (model_name cfg)
                generation_config (system_prompt cfg) with
        | Raises _ => None
        | Returns gm => Some gm
        end
    end
  else None.

(** [BaseAgent.__init__]: the fields of the new agent. *)
Definition init_agent (platform : Platform) (cfg : AgentConfig)
    (settings : ModelSettings) : AgentState :=
  {| config := cfg; agent_status := IDLE; tools := []; tool_functions := ∅;
     model :=
       _initialize_model platform cfg settings
         (_initialize_vertexai platform cfg settings) |}.

Definition default_settings : ModelSettings :=
  {| max_tokens := 8192; top_p := (95 # 100)%Q; top_k := 40; timeout := 300;
     location := "us-central1" |}.

(** ** The orchestrator as an agent ([process_task]) *)

Record WorkflowPlan := {
  plan_task : string;
  plan_context : gmap string PyVal;
  plan_steps : list PyVal;
  agents_needed : list string
}.

(** [_plan_workflow]. A Python dictionary lists its keys in the order of
    their insertion, which the map of the embedding does not keep:
    [keys] stands for [list(self.registered_agents.keys())]. *)
Definition _plan_workflow (keys : list string) (task : string)
    (context : option (gmap string PyVal)) : WorkflowPlan :=
  {| plan_task := task; plan_context := default ∅ context;
     plan_steps := []; agents_needed := keys |}.

(** [keys] lists the names of the registry, each once. *)
Definition keys_of (orch : OrchestratorAgent) (keys : list string) : Prop :=
  NoDup keys
  /\ forall n, n ∈ keys <-> is_Some (registered_agents orch !! n).

(** The body of the loop of [_execute_workflow], on the registered agents
    and the list [results]. *)
Definition _execute_workflow_step (plan : WorkflowPlan)
    (acc : gmap string BaseAgent * list AgentResponse) (agent_name : string)
  : gmap string BaseAgent * list AgentResponse :=
  match acc.1 !! agent_name with
  | None => acc
  | Some agent =>
      let '(agent', response) :=
        run agent (plan_task plan) (Some (plan_context plan)) in
      (<[agent_name := agent']> acc.1, acc.2 ++ [response])
  end.

Definition _execute_workflow (orch : OrchestratorAgent) (plan : WorkflowPlan)
  : gmap string BaseAgent * list AgentResponse :=
  foldl (_execute_workflow_step plan) (registered_agents orch, [])
    (agents_needed plan).

(** [OrchestratorAgent.process_task]: the orchestrator after the call, the
    messages sent to its own model, and the response. *)
Definition orchestrator_process_task (fuel : nat) (orch : OrchestratorAgent)
    (keys : list string) (task : string)
    (context : option (gmap string PyVal))
  : OrchestratorAgent * list Message * option AgentResponse :=
  let workflow_plan := _plan_workflow keys task context in
  let '(agents, results) := _execute_workflow orch workflow_plan in
  let '(sent, final_response) := _synthesize_results fuel orch results task in
  ({| base := base orch; registered_agents := agents |}, sent, final_response).

(** ** The web search tool ([tools/web_search.py]) *)

Record WebSearchTool := {
  api_key : option string;
  search_engine_id : option string
}.

(** [WebSearchTool.__init__], given the values of the environment
    variables [SEARCH_API_KEY] and [SEARCH_ENGINE_ID]. *)
Definition new_WebSearchTool (key engine env_key env_engine : option string)
  : WebSearchTool :=
  {| api_key := py_or key env_key;
     search_engine_id := py_or engine env_engine |}.

(** One entry of the simulated results, for the loop variable [i]. *)
Definition simulated_result (query : string) (i : nat) : PyVal :=
  PyDict
    [("title", PyStr ("Result " +:+ pretty (S i) +:+ " for '" +:+ query +:+ "'"));
     ("link", PyStr ("https://example.com/result-" +:+ pretty (S i)));
     ("snippet",
      PyStr ("This is a simulated search result snippet " +:+ pretty (S i)
             +:+ " related to '" +:+ query +:+ "'. "
             +:+ "Contains relevant information about the topic."))].

(** [_simulated_search]: [range(min(num_results, 5))] is empty when the
    bound is not positive. *)
Definition _simulated_search (query : string) (num_results : Z) : PyVal :=
  let results :=
    simulated_result query <$> seq 0 (Z.to_nat (Z.min num_results 5)) in
  PyDict
    [("query", PyStr query);
     ("num_results", PyInt (Z.of_nat (length results)));
     ("results", PyList results);
     ("status", PyStr "success");
     ("simulated", PyBool true)].

(** [search]. The request to the search service, [_google_search], is a
    parameter: it is made only when both the key and the engine id are
    set. *)
Definition search (_google_search : WebSearchTool -> string -> Z -> PyVal)
    (tool : WebSearchTool) (query : string) (num_results : Z) : PyVal :=
  if truthy (api_key tool) && truthy (search_engine_id tool)
  then _google_search tool query num_results
  else _simulated_search query num_results.

(** [d[key]] on a dictionary value. *)
Definition dict_get (key : string) (d : PyVal) : option PyVal :=
  match d with
  | PyDict items =>
      (fun found => found.2.2) <$> list_find (fun kv => kv.1 = key) items
  | _ => None
  end.

(** ** The researcher ([agents/researcher_agent.py]) *)

Definition research_instructions : string :=
  newline
  +:+ "Please conduct thorough research on this topic:" +:+ newline
  +:+ newline
  +:+ "1. Search for relevant and recent information" +:+ newline
  +:+ "2. Identify key facts, trends, and insights" +:+ newline
  +:+ "3. Verify information from multiple sources when possible" +:+ newline
  +:+ "4. Organize findings in a clear, structured format" +:+ newline
  +:+ "5. Cite sources where applicable" +:+ newline
  +:+ newline
  +:+ "Provide a comprehensive research report." +:+ newline.

(** [_format_research_prompt]. The lines ["- <key>: <value>\n"] of a
    context follow the order of insertion of its keys and Python's
    formatting of the values; [render_items] stands for them. A context
    that is [None] or empty adds nothing. *)
Definition _format_research_prompt
    (render_items : gmap string PyVal -> string) (task : string)
    (context : option (gmap string PyVal)) : string :=
  let prompt := "Research Task: " +:+ task +:+ newline +:+ newline in
  let prompt :=
    match context with
    | Some items =>
        if decide (items = ∅) then prompt
        else prompt +:+ "Context:" +:+ newline +:+ render_items items
             +:+ newline
    | None => prompt
    end in
  prompt +:+ research_instructions.

Definition turn_budget_exceeded : PyException :=
  {| exc_class := "TimeoutError"; exc_text := "turn budget exceeded" |}.

(** The methods of [ResearcherAgent]: [process_task] formats the prompt
    and returns what [generate_with_tools] returns. A conversation longer
    than [budget] turns is cut off with an exception. *)
Definition ResearcherAgent_methods
    (render_items : gmap string PyVal -> string) (budget : nat)
  : AgentMethods :=
  {| preprocess_task := base_preprocess_task;
     process_task := fun st task context =>
       let research_prompt :=
         _format_research_prompt render_items task context in
       match generate_with_tools budget st research_prompt with
       | (_, Some response) => Returns response
       | (_, None) => Raises turn_budget_exceeded
       end;
     postprocess_response := base_postprocess_response |}.

(** The configuration [ResearcherAgent.__init__] uses when it is given
    none. *)
Definition ResearcherAgent_config : AgentConfig :=
  {| name := "ResearcherAgent";
     model_name := "gemini-2.5-flash-preview-5-20";
     system_prompt :=
       "You are a research specialist agent. Your role is to:" +:+ newline
       +:+ "                - Search for relevant information on the web"
       +:+ newline
       +:+ "                - Extract and summarize key findings" +:+ newline
       +:+ "                - Verify information from multiple sources"
       +:+ newline
       +:+ "                - Provide structured, well-cited research results"
       +:+ newline +:+ newline
       +:+ "                Always be thorough, accurate, and cite your sources when possible.";
     temperature := (5 # 10)%Q; project_id := None |}.

(** [search_and_summarize]: the agent after the call and the returned
    text. *)
Definition search_and_summarize (ag : BaseAgent) (query : string)
    (num_results : Z) : BaseAgent * string :=
  let task :=
    "Search for and summarize information about: " +:+ query
    +:+ " (consider top " +:+ pretty num_results +:+ " results)" in
  let '(ag', response) := run ag task None in
  (ag', content response).

(** ** Fixtures *)

Definition default_config (n : string) : AgentConfig :=
  {| name := n; model_name := "gemini-2.5-flash-preview-5-20";
     system_prompt := "You are a helpful AI agent.";
     temperature := (7 # 10)%Q; project_id := None |}.

(** A new agent in limited mode: no project, hence no model. *)
Definition new_state (cfg : AgentConfig) : AgentState :=
  {| config := cfg; agent_status := IDLE; tools := [];
     tool_functions := ∅; model := None |}.

(** [TestAgent] of [tests/test_agents.py]. *)
Definition TestAgent_methods : AgentMethods :=
  {| preprocess_task := base_preprocess_task;
     process_task := fun st task _ =>
       Returns {| agent_name := name (config st);
                  content := "Processed: " +:+ task;
                  status := COMPLETED; metadata := ∅; tool_calls := [];
                  error := None |};
     postprocess_response := base_postprocess_response |}.

Definition TestAgent (n : string) : BaseAgent :=
  {| self := new_state (default_config n); methods := TestAgent_methods |}.

(** [SimpleAgent] of [examples/simple_agent.py]: [process_task] is
    [generate_with_tools]. A conversation longer than [budget] turns is cut
    off with an exception. *)
Definition SimpleAgent_methods (budget : nat) : AgentMethods :=
  {| preprocess_task := base_preprocess_task;
     process_task := fun st task _ =>
       match generate_with_tools budget st task with
       | (_, Some response) => Returns response
       | (_, None) =>
           Raises {| exc_class := "TimeoutError"; exc_text := "turn budget exceeded" |}
       end;
     postprocess_response := base_postprocess_response |}.

Definition SimpleAgent (n : string) : BaseAgent :=
  {| self := new_state (default_config n); methods := SimpleAgent_methods 8 |}.

(** A model that asks for the tool ["lookup"] and whose connection drops
    when the tool's result is sent back. *)
Definition lookup_call : FunctionCall :=
  {| fc_name := "lookup"; fc_args := [("key", PyStr "k")] |}.

Definition tool_request (fc : FunctionCall) : GenerationResponse :=
  {| candidates := [{| parts := [PartFunctionCall fc] |}];
     text := None; repr := "<function_call>" |}.

Definition answer (t : string) : GenerationResponse :=
  {| candidates := [{| parts := [PartText t] |}];
     text := Some t; repr := t |}.

Definition connection_reset : PyException :=
  {| exc_class := "ServiceUnavailable"; exc_text := "503 connection reset" |}.

Definition dropping_model : GenerativeModel := fun chat =>
  match chat with
  | [_] => Returns (tool_request lookup_call)
  | _ => Raises connection_reset
  end.

(** A model that asks for ["lookup"] once and then answers. *)
Definition one_call_model : GenerativeModel := fun chat =>
  match chat with
  | [_] => Returns (tool_request lookup_call)
  | _ => Returns (answer "done")
  end.

Definition state_with_model (n : string) (gm : GenerativeModel) : AgentState :=
  {| config := default_config n; agent_status := IDLE; tools := [];
     tool_functions := ∅; model := Some gm |}.

(** An SDK constructor that accepts every schema. *)
Definition permissive_declaration : DeclarationConstructor :=
  fun n d p =>
    Returns {| fd_name := n; fd_description := d; fd_parameters := p |}.

Definition echo_tool (n : string) : Registration :=
  {| reg_name := n; reg_description := "echoes its arguments";
     reg_function := fun args => Returns (PyDict args);
     reg_parameters := PyDict [("type", PyStr "object")] |}.

(** Another tool under the name ["echo"]. *)
Definition replacement_tool : Registration :=
  {| reg_name := "echo"; reg_description := "replacement";
     reg_function := fun _ => Returns PyNone;
     reg_parameters := PyDict [("type", PyStr "object")] |}.

(** An agent whose [process_task] raises. *)
Definition value_error : PyException :=
  {| exc_class := "ValueError"; exc_text := "malformed task" |}.

Definition RaisingAgent (n : string) : BaseAgent :=
  {| self := new_state (default_config n);
     methods :=
       {| preprocess_task := base_preprocess_task;
          process_task := fun _ _ _ => Raises value_error;
          postprocess_response := base_postprocess_response |} |}.

(** An orchestrator with two [TestAgent]s registered. *)
Definition demo_orchestrator : OrchestratorAgent :=
  register_agent
    (register_agent
       {| base := new_state (default_config "OrchestratorAgent");
          registered_agents := ∅ |}
       (TestAgent "ResearcherAgent"))
    (TestAgent "AnalyzerAgent").

(** The caller's dictionaries: [{"topic": "AI"}] at reference 1 and an
    empty one at reference 2. *)
Definition demo_store : gmap nat (gmap string PyVal) :=
  <[2 := ∅]> (<[1 := <["topic" := PyStr "AI"]> ∅]> ∅).

Definition demo_tasks : list TaskInfo :=
  [ {| ti_agent_name := "ResearcherAgent"; ti_task := "Research AI";
       ti_context := Some 1 |};
    {| ti_agent_name := "AnalyzerAgent"; ti_task := "Analyze findings";
       ti_context := Some 2 |} ].

(** A workflow whose second step names an agent that is not registered. *)
Definition tasks_with_unknown_agent : list TaskInfo :=
  [ {| ti_agent_name := "ResearcherAgent"; ti_task := "Research AI";
       ti_context := Some 1 |};
    {| ti_agent_name := "WriterAgent"; ti_task := "Write report";
       ti_context := Some 2 |};
    {| ti_agent_name := "AnalyzerAgent"; ti_task := "Analyze findings";
       ti_context := None |} ].

(** What the sequential workflow over [demo_tasks] passes to and gets from
    the second agent. *)
Definition demo_second_dispatch : Dispatch :=
  {| d_index := 1; d_agent_name := "AnalyzerAgent";
     d_task := "Analyze findings";
     d_context :=
       <["previous_results" := PyList [PyStr "Processed: Research AI"]]> ∅;
     d_response :=
       {| agent_name := "AnalyzerAgent";
          content := "Processed: Analyze findings";
          status := COMPLETED; metadata := ∅; tool_calls := [];
          error := None |} |}.

(** A model whose reply has no candidate at all. *)
Definition blocked_model : GenerativeModel := fun _ =>
  Returns {| candidates := []; text := None; repr := "<blocked>" |}.

(** A model whose reply opens with text and asks for a tool in its second
    part. *)
Definition text_then_call_model : GenerativeModel := fun _ =>
  Returns {| candidates :=
               [{| parts := [PartText "thinking"; PartFunctionCall lookup_call] |}];
             text := Some "thinking"; repr := "thinking" |}.

(** An agent with a model and a tool ["lookup"] that raises. *)
Definition key_error : PyException :=
  {| exc_class := "KeyError"; exc_text := "'k'" |}.

Definition state_with_failing_tool (gm : GenerativeModel) : AgentState :=
  {| config := default_config "A"; agent_status := IDLE;
     tools := [{| function_declarations :=
                    [{| fd_name := "lookup"; fd_description := "looks a key up";
                        fd_parameters := PyDict [("type", PyStr "object")] |}] |}];
     tool_functions := <["lookup" := fun _ => Raises key_error]> ∅;
     model := Some gm |}.

(** A platform with the given [PROJECT_ID] in its environment, whose SDK
    calls all succeed. *)
Definition working_sdk (project : option string) : Platform :=
  {| env_PROJECT_ID := project; env_LOCATION := None;
     vertexai_init := fun _ _ => Returns tt;
     new_generation_config := fun t p k m =>
       Returns {| gc_temperature := t; gc_top_p := p; gc_top_k := k;
                  gc_max_output_tokens := m |};
     new_generative_model := fun _ _ _ => Returns one_call_model |}.

Definition config_with_project (n : string) (p : option string) : AgentConfig :=
  {| name := n; model_name := "gemini-2.5-flash-preview-5-20";
     system_prompt := "You are a helpful AI agent.";
     temperature := (7 # 10)%Q; project_id := p |}.

(** A search service that answers every request with an error. *)
Definition unreachable_service : WebSearchTool -> string -> Z -> PyVal :=
  fun _ query _ =>
    PyDict [("query", PyStr query); ("error", PyStr "connection refused");
            ("status", PyStr "failed")].

(** A researcher in limited mode, and one with a model. *)
Definition limited_researcher : BaseAgent :=
  {| self := new_state ResearcherAgent_config;
     methods := ResearcherAgent_methods (fun _ => "") 8 |}.

Definition answering_model : GenerativeModel := fun _ =>
  Returns (answer "Rocq is a proof assistant.").

Definition researcher_with (gm : GenerativeModel) : BaseAgent :=
  {| self :=
       {| config := ResearcherAgent_config; agent_status := IDLE;
          tools := []; tool_functions := ∅; model := Some gm |};
     methods := ResearcherAgent_methods (fun _ => "") 8 |}.

(** ** Vocabulary of the statements *)

(** The context a sequential step passes to its agent. *)
Definition sequential_context (i : nat) (task_info : TaskInfo) (w : Workflow)
  : gmap string PyVal :=
  if (0 <? i)%nat
  then <["previous_results" := contents (wf_results w)]>
         (get_context (wf_store w) task_info)
  else get_context (wf_store w) task_info.

(** What the two loop bodies have in common: a step whose agent is not
    registered leaves the state as it is; any other step replaces the
    agent under its name, appends one response and one dispatch entry
    that carries the step's index, names and that response. *)
Definition dispatches (step : nat -> TaskInfo -> Workflow -> Workflow) : Prop :=
  forall i t w,
    match wf_agents w !! ti_agent_name t with
    | None => step i t w = w
    | Some _ =>
        exists agent' store context response,
          step i t w
          = {| wf_agents := <[ti_agent_name t := agent']> (wf_agents w);
               wf_store := store;
               wf_results := wf_results w ++ [response];
               wf_dispatched :=
                 wf_dispatched w
                 ++ [{| d_index := i; d_agent_name := ti_agent_name t;
                        d_task := ti_task t; d_context := context;
                        d_response := response |}] |}
    end.

(** A dispatch entry carries the names of the step at its index. *)
Definition from_step (tasks : list TaskInfo) (d : Dispatch) : Prop :=
  exists t,
    tasks !! d_index d = Some t
    /\ ti_agent_name t = d_agent_name d
    /\ ti_task t = d_task d.

(** The dispatches of a workflow over [tasks]: one per step whose agent is
    registered with [orch], in the order of the steps; their responses,
    in that order, are the returned list; nothing else is in it. *)
Definition dispatched_in_order (orch : OrchestratorAgent)
    (tasks : list TaskInfo) (w : Workflow) : Prop :=
  d_index <$> wf_dispatched w
  = filter
      (fun j => is_Some (tasks !! j
                         ≫= fun t => registered_agents orch !! ti_agent_name t))
      (seq 0 (length tasks))
  /\ d_response <$> wf_dispatched w = wf_results w
  /\ Forall (from_step tasks) (wf_dispatched w).

(** The dictionary at reference [r] is the one the caller put in [store0],
    with an entry ["previous_results"] written over it. *)
Definition touched (store0 : gmap nat (gmap string PyVal)) (r : nat)
    (w : Workflow) : Prop :=
  exists v,
    wf_store w !! r
    = Some (<["previous_results" := v]> (default ∅ (store0 !! r))).

(** Every dictionary of the store is as the caller left it, or touched. *)
Definition framed (store0 : gmap nat (gmap string PyVal)) (w : Workflow)
  : Prop :=
  forall r, wf_store w !! r = store0 !! r \/ touched store0 r w.

(** The dispatch entries agree with [results], and every entry of a step
    with a positive index has, in the context passed, the contents of the
    responses obtained before it under ["previous_results"]. *)
Definition previous_results_passed (w : Workflow) : Prop :=
  d_response <$> wf_dispatched w = wf_results w
  /\ forall k d,
       wf_dispatched w !! k = Some d ->
       0 < d_index d ->
       d_context d !! "previous_results"
       = Some (contents (take k (wf_results w))).

(** The message that carries the result of a recorded tool call back to
    the model. *)
Definition record_message (record : ToolCallRecord) : Message :=
  MsgFunctionResponse (tc_function record)
    (PyDict [("result", tc_result record)]).

(** The record holds what [_handle_tool_call] gives for its name and
    arguments. *)
Definition record_of_handler (st : AgentState) (record : ToolCallRecord)
  : Prop :=
  tc_result record
  = _handle_tool_call st
      {| fc_name := tc_function record; fc_args := tc_args record |}.

(** The reply ends the loop: its first candidate has no part, or a first
    part that is not a function call. *)
Definition ends_conversation (response : GenerationResponse) : Prop :=
  exists c cs,
    candidates response = c :: cs
    /\ (parts c = [] \/ exists t ps, parts c = PartText t :: ps).

(** [response.text if hasattr(response, 'text') else str(response)] *)
Definition final_text (response : GenerationResponse) : string :=
  match text response with
  | Some t => t
  | None => repr response
  end.

(** The agents of [agents] are those of [registry], each with some
    status. *)
Definition tracks (registry agents : gmap string BaseAgent) : Prop :=
  forall n,
    match registry !! n with
    | None => agents !! n = None
    | Some a => exists s, agents !! n = Some (with_status s a)
    end.

(** The response of the agent registered under [n], if any, to a task and
    a context. *)
Definition response_of (registry : gmap string BaseAgent) (task : string)
    (context : gmap string PyVal) (n : string) : option AgentResponse :=
  (fun a => (run a task (Some context)).2) <$> registry !! n.

(** The lines of the synthesis prompt for the [i]-th result. *)
Definition synthesis_entry (i : nat) (result : AgentResponse) : string :=
  "Agent " +:+ pretty i +:+ " (" +:+ agent_name result +:+ "):" +:+ newline
  +:+ content result +:+ newline +:+ newline.

(** What the two loop bodies do to the registry: a step whose agent is
    registered replaces that agent by the one its [run] leaves; any other
    step leaves the registry as it is. *)
Definition runs_agents (step : nat -> TaskInfo -> Workflow -> Workflow)
  : Prop :=
  forall i t w,
    match wf_agents w !! ti_agent_name t with
    | None => wf_agents (step i t w) = wf_agents w
    | Some agent =>
        exists context,
          wf_agents (step i t w)
          = <[ti_agent_name t :=
                (run agent (ti_task t) (Some context)).1]> (wf_agents w)
    end.

(** The agent registered under [n] has been run: it is the agent of
    [registry] with status [COMPLETED] or [FAILED]. *)
Definition has_run (registry agents : gmap string BaseAgent) (n : string)
  : Prop :=
  exists s a,
    (s = COMPLETED \/ s = FAILED)
    /\ registry !! n = Some a
    /\ agents !! n = Some (with_status s a).

(** * Properties *)

(** ** The conversation loop *)

Lemma tool_loop_fuel_mono fuel : forall fuel' st gm chat response tool_calls,
  fuel <= fuel' ->
  (tool_loop fuel st gm chat response tool_calls).2 <> OutOfFuel ->
  tool_loop fuel' st gm chat response tool_calls
  = tool_loop fuel st gm chat response tool_calls.
Proof.
  induction fuel as [|fuel IH]; intros fuel' st gm chat response tcs Hle Hne.
  - simpl in Hne. congruence.
  - destruct fuel' as [|fuel']; [lia|].
    simpl in *.
    destruct (candidates response) as [|c cs]; [done|].
    destruct (parts c) as [|[fc|t] ps]; [done| |done].
    destruct (gm _) as [response'|e]; [|done].
    apply IH; [lia|done].
Qed.

Lemma generate_try_fuel_mono fuel fuel' st gm prompt :
  fuel <= fuel' ->
  (generate_try fuel st gm prompt).2 <> OutOfFuel ->
  generate_try fuel' st gm prompt = generate_try fuel st gm prompt.
Proof.
  unfold generate_try, send_message. intros Hle Hne.
  destruct (gm _) as [response|e]; [|done].
  by apply tool_loop_fuel_mono.
Qed.

(** The messages sent during a call begin with the session's history. *)
Lemma tool_loop_sent fuel : forall st gm chat response tool_calls,
  exists rest,
    (tool_loop fuel st gm chat response tool_calls).1 = chat ++ rest.
Proof.
  induction fuel as [|fuel IH]; intros st gm chat response tcs; simpl.
  - exists []. by rewrite app_nil_r.
  - destruct (candidates response) as [|c cs];
      [exists []; by rewrite app_nil_r|].
    destruct (parts c) as [|[fc|t] ps];
      [exists []; by rewrite app_nil_r| |exists []; by rewrite app_nil_r].
    destruct (gm _) as [response'|e].
    + destruct (IH st gm
                  (chat ++ [function_response fc (_handle_tool_call st fc)])
                  response'
                  (tcs ++ [tool_call_record fc (_handle_tool_call st fc)]))
        as [rest Hrest].
      eexists. rewrite Hrest, <- app_assoc. done.
    + by eexists.
Qed.

Lemma generate_with_tools_sent fuel st gm prompt :
  model st = Some gm ->
  exists rest,
    (generate_with_tools fuel st prompt).1 = first_message st prompt :: rest.
Proof.
  intros Hm. unfold generate_with_tools. rewrite Hm.
  assert (exists rest,
            (generate_try fuel st gm prompt).1
            = first_message st prompt :: rest) as [rest Hrest].
  { unfold generate_try, send_message. simpl app.
    destruct (gm _) as [response|e]; [|by eexists].
    destruct (tool_loop_sent fuel st gm [first_message st prompt] response [])
      as [rest Hrest].
    by exists rest. }
  exists rest.
  destruct (generate_try fuel st gm prompt) as [sent [resp tcs|e tcs|tcs|]];
    done.
Qed.

(** [GatewayRaised e] is the outcome of a [send_message] that raised [e]:
    the model raised [e] on the messages sent, the last of which is the
    prompt or the result of the latest recorded tool call. *)
Lemma tool_loop_gateway_raised fuel :
  forall st gm chat response tool_calls sent e recs,
    tool_loop fuel st gm chat response tool_calls
    = (sent, GatewayRaised e recs) ->
    gm sent = Raises e
    /\ exists new_recs,
         recs = tool_calls ++ new_recs
         /\ length sent = length chat + length new_recs.
Proof.
  induction fuel as [|fuel IH]; intros st gm chat response tcs sent e recs;
    simpl; [done|].
  destruct (candidates response) as [|c cs]; [done|].
  destruct (parts c) as [|[fc|t] ps]; [done| |done].
  destruct (gm _) as [response'|e'] eqn:Egm.
  - intros H. apply IH in H as (Hraise & new_recs & -> & Hlen).
    split; [done|].
    eexists (_ :: new_recs). rewrite <- app_assoc. split; [done|].
    rewrite Hlen, length_app. simpl. lia.
  - intros [= <- <- <-]. split; [done|].
    eexists [_]. split; [done|]. rewrite length_app. simpl. lia.
Qed.

(** A model that is not initialized fails the call before any message is
    sent, whatever the budget. *)
Lemma generate_with_tools_no_model fuel st prompt :
  model st = None ->
  generate_with_tools fuel st prompt
  = ([], Some (failed_response st "Model not initialized")).
Proof. unfold generate_with_tools. by intros ->. Qed.

(** C1 (as amended): when a call to the model raises [e] during the
    conversation, after the loop has produced the records [recs], then
    [generate_with_tools] returns, for this and every larger turn budget,
    a response with status [FAILED], empty content and error [str e]; its
    [tool_calls] list is empty. *)
Theorem gateway_failure_returns_failed
    fuel fuel' st gm prompt sent e recs :
  model st = Some gm ->
  generate_try fuel st gm prompt = (sent, GatewayRaised e recs) ->
  fuel <= fuel' ->
  generate_with_tools fuel' st prompt
  = (sent,
     Some {| agent_name := name (config st); content := "";
             status := FAILED; metadata := ∅; tool_calls := [];
             error := Some (str e) |}).
Proof.
  intros Hm Htry Hle. unfold generate_with_tools. rewrite Hm.
  rewrite (generate_try_fuel_mono fuel fuel') by (done || by rewrite Htry).
  by rewrite Htry.
Qed.

Lemma gateway_failure_returns_failed_witness :
  generate_with_tools 7 (state_with_model "A" dropping_model) "question"
  = ([MsgPrompt "question" None;
      function_response lookup_call (error_dict "Tool not found: lookup")],
     Some {| agent_name := "A"; content := ""; status := FAILED;
             metadata := ∅; tool_calls := [];
             error := Some "503 connection reset" |}).
Proof.
  apply (gateway_failure_returns_failed 2 7 (state_with_model "A" dropping_model)
           dropping_model "question" _ connection_reset
           [tool_call_record lookup_call (error_dict "Tool not found: lookup")]).
  - reflexivity.
  - reflexivity.
  - lia.
Defined.

(** C1 (as stated) fails: the model asks for a tool, the loop records the
    call, and the connection drops when the result is sent back. The
    returned response is [FAILED] with the exception text, but the record
    produced before the failure is not in its [tool_calls]. *)
Lemma partial_records_not_attached :
  exists sent e record r,
    generate_try 7 (state_with_model "A" dropping_model) dropping_model
      "question" = (sent, GatewayRaised e [record])
    /\ generate_with_tools 7 (state_with_model "A" dropping_model) "question"
       = (sent, Some r)
    /\ status r = FAILED
    /\ error r = Some (str e)
    /\ record ∉ tool_calls r.
Proof.
  eexists _, _, _, _. split; [reflexivity|]. split; [reflexivity|].
  repeat split. simpl. apply not_elem_of_nil.
Qed.

(** C2: a tool-call request for a name that is not in [tool_functions]
    yields the result [{"error": "Tool not found: <name>"}]; the loop
    appends the record of the call, sends that result back to the model as
    the next message, and goes on with the model's reply. The only way the
    turn ends the loop is a failure of that next call to the model. *)
Theorem unknown_tool_is_reported_to_model
    fuel st gm chat response c cs fc ps tool_calls :
  candidates response = c :: cs ->
  parts c = PartFunctionCall fc :: ps ->
  tool_functions st !! fc_name fc = None ->
  let result := PyDict [("error", PyStr ("Tool not found: " +:+ fc_name fc))] in
  let record :=
    {| tc_function := fc_name fc; tc_args := fc_args fc;
       tc_result := result |} in
  let message :=
    MsgFunctionResponse (fc_name fc) (PyDict [("result", result)]) in
  _handle_tool_call st fc = result
  /\ tool_loop (S fuel) st gm chat response tool_calls
     = match gm (chat ++ [message]) with
       | Returns response' =>
           tool_loop fuel st gm (chat ++ [message]) response'
             (tool_calls ++ [record])
       | Raises e =>
           (chat ++ [message], GatewayRaised e (tool_calls ++ [record]))
       end.
Proof.
  intros Hc Hp Hnone result record message.
  assert (Hh : _handle_tool_call st fc = result).
  { unfold _handle_tool_call. cbv zeta. by rewrite Hnone. }
  split; [done|].
  simpl. rewrite Hc, Hp. unfold send_message, function_response,
    tool_call_record. rewrite Hh.
  by destruct (gm _).
Qed.

Lemma unknown_tool_is_reported_to_model_witness :
  _handle_tool_call (state_with_model "A" one_call_model) lookup_call
  = error_dict "Tool not found: lookup"
  /\ tool_loop 3 (state_with_model "A" one_call_model) one_call_model
       [MsgPrompt "question" None] (tool_request lookup_call) []
     = ([MsgPrompt "question" None;
         function_response lookup_call (error_dict "Tool not found: lookup")],
        Finished (answer "done")
          [tool_call_record lookup_call (error_dict "Tool not found: lookup")]).
Proof.
  apply (unknown_tool_is_reported_to_model 2
           (state_with_model "A" one_call_model) one_call_model
           [MsgPrompt "question" None] (tool_request lookup_call)
           {| parts := [PartFunctionCall lookup_call] |} [] lookup_call [] []);
    reflexivity.
Defined.

(** The whole call on that conversation: it completes with the model's
    answer and exactly one record, which holds the error result. *)
Example unknown_tool_conversation_completes :
  (generate_with_tools 3 (state_with_model "A" one_call_model) "question").2
  = Some {| agent_name := "A"; content := "done"; status := COMPLETED;
            metadata := generation_metadata (state_with_model "A" one_call_model);
            tool_calls :=
              [tool_call_record lookup_call
                 (error_dict "Tool not found: lookup")];
            error := None |}.
Proof. reflexivity. Qed.

(** ** The [run] boundary *)

Lemma run_returns ag task context final_response :
  run_try ag task context = Returns final_response ->
  run ag task context = (with_status COMPLETED ag, final_response).
Proof. unfold run. by intros ->. Qed.

Lemma run_raises ag task context e :
  run_try ag task context = Raises e ->
  run ag task context
  = (with_status FAILED ag,
     failed_response (self ag) ("Agent execution failed: " +:+ str e)).
Proof. unfold run. by intros ->. Qed.

(** [run] ends in one of its two exits, and the agent's status tells
    which. *)
Lemma run_exits ag task context :
  (exists r, run_try ag task context = Returns r
             /\ run ag task context = (with_status COMPLETED ag, r))
  \/ (exists e, run_try ag task context = Raises e
                /\ run ag task context
                   = (with_status FAILED ag,
                      failed_response (self ag)
                        ("Agent execution failed: " +:+ str e))).
Proof.
  destruct (run_try ag task context) as [r|e] eqn:E.
  - left. exists r. split; [done|]. by apply run_returns.
  - right. exists e. split; [done|]. by apply run_raises.
Qed.

(** C3: whichever of [preprocess_task], [process_task] and
    [postprocess_response] raises [e], [run] returns a response with status
    [FAILED] whose error is ["Agent execution failed: "] followed by the
    text of [e], and leaves the agent's status [FAILED]. [run] is a total
    function into responses: no exception leaves it. *)
Theorem run_converts_exception_to_failed ag task context e :
  let st := set_status RUNNING (self ag) in
  preprocess_task (methods ag) st task context = Raises e
  \/ (exists t,
        preprocess_task (methods ag) st task context = Returns t
        /\ process_task (methods ag) st t context = Raises e)
  \/ (exists t r,
        preprocess_task (methods ag) st task context = Returns t
        /\ process_task (methods ag) st t context = Returns r
        /\ postprocess_response (methods ag) st r = Raises e) ->
  run ag task context
  = (with_status FAILED ag,
     {| agent_name := name (config (self ag)); content := "";
        status := FAILED; metadata := ∅; tool_calls := [];
        error := Some ("Agent execution failed: " +:+ str e) |}).
Proof.
  intros st H. apply run_raises. unfold run_try. fold st.
  destruct H as [H | [(t & H1 & H2) | (t & r & H1 & H2 & H3)]].
  - by rewrite H.
  - by rewrite H1, H2.
  - by rewrite H1, H2.
Qed.

Lemma run_converts_exception_to_failed_witness :
  run (RaisingAgent "R") "task" None
  = (with_status FAILED (RaisingAgent "R"),
     {| agent_name := "R"; content := ""; status := FAILED; metadata := ∅;
        tool_calls := [];
        error := Some "Agent execution failed: malformed task" |}).
Proof.
  apply (run_converts_exception_to_failed (RaisingAgent "R") "task" None
           value_error).
  right. left. exists "task". split; reflexivity.
Defined.

(** C9: when [process_task] returns a response whose status is [FAILED]
    (and the two hooks return, as the base-class ones do), [run] takes its
    normal exit: the agent's status is set to [COMPLETED] and the response
    is returned as it is, with status [FAILED]. *)
Theorem run_completed_with_failed_response ag task context t r :
  let st := set_status RUNNING (self ag) in
  preprocess_task (methods ag) st task context = Returns t ->
  process_task (methods ag) st t context = Returns r ->
  postprocess_response (methods ag) st r = Returns r ->
  status r = FAILED ->
  exists ag' r',
    run ag task context = (ag', r')
    /\ agent_status (self ag') = COMPLETED
    /\ r' = r
    /\ status r' = FAILED.
Proof.
  intros st Hpre Hproc Hpost Hfailed.
  exists (with_status COMPLETED ag), r.
  split; [|done].
  apply run_returns. unfold run_try. fold st. by rewrite Hpre, Hproc.
Qed.

Lemma run_completed_with_failed_response_witness :
  exists ag' r',
    run (SimpleAgent "S") "task" None = (ag', r')
    /\ agent_status (self ag') = COMPLETED
    /\ r' = failed_response
              (set_status RUNNING (self (SimpleAgent "S")))
              "Model not initialized"
    /\ status r' = FAILED.
Proof.
  apply (run_completed_with_failed_response (SimpleAgent "S") "task" None
           "task"); reflexivity.
Defined.

(** ** Tool registration *)

Lemma register_accepted nd st r :
  accepted nd r ->
  tool_functions (register nd st r)
  = <[reg_name r := reg_function r]> (tool_functions st)
  /\ length (tools (register nd st r)) = S (length (tools st)).
Proof.
  intros [fd Hfd]. unfold register, add_tool. rewrite Hfd. simpl.
  split; [done|]. rewrite length_app. simpl. lia.
Qed.

Lemma register_all_lookup nd regs : forall st n,
  n ∉ (reg_name <$> regs) ->
  tool_functions (foldl (register nd) st regs) !! n = tool_functions st !! n.
Proof.
  induction regs as [|r regs IH]; intros st n Hn; [done|].
  rewrite fmap_cons, not_elem_of_cons in Hn. destruct Hn as [Hne Hn].
  simpl. rewrite IH by done.
  unfold register, add_tool.
  destruct (nd _ _ _); [|done]. simpl. by rewrite lookup_insert_ne.
Qed.

Lemma register_all_size nd regs : forall st,
  NoDup (reg_name <$> regs) ->
  Forall (accepted nd) regs ->
  (forall r, r ∈ regs -> tool_functions st !! reg_name r = None) ->
  size (tool_functions (foldl (register nd) st regs))
  = size (tool_functions st) + length regs.
Proof.
  induction regs as [|r regs IH]; intros st Hnd Hacc Hfresh; simpl.
  - lia.
  - rewrite fmap_cons in Hnd. apply NoDup_cons in Hnd as [Hr Hnd].
    apply Forall_cons in Hacc as [Ha Hacc].
    destruct (register_accepted nd st r Ha) as [Htf _].
    rewrite IH; [|done|done|].
    + rewrite Htf, map_size_insert_None; [lia|].
      apply Hfresh. by left.
    + intros r' Hr'. rewrite Htf, lookup_insert_ne.
      * apply Hfresh. by right.
      * intros Heq. apply Hr. rewrite Heq. by apply list_elem_of_fmap_2.
Qed.

(** The schema list is append-only: every accepted call adds one [Tool],
    also when the name is already registered. *)
Remark add_tool_appends_schema nd st r :
  accepted nd r ->
  length (tools (register nd st r)) = S (length (tools st)).
Proof. intros Ha. by destruct (register_accepted nd st r Ha). Qed.

(** The name-to-callable side of the registry: starting from an empty
    one, [N] accepted registrations with pairwise distinct names leave [N]
    entries in [tool_functions]; an accepted registration under a name
    that is already registered replaces the callable stored under that
    name and leaves the size of [tool_functions] as it was. *)
Lemma tool_functions_size nd st regs st2 dup f0 :
  tool_functions st = ∅ ->
  NoDup (reg_name <$> regs) ->
  Forall (accepted nd) regs ->
  tool_functions st2 !! reg_name dup = Some f0 ->
  accepted nd dup ->
  size (tool_functions (foldl (register nd) st regs)) = length regs
  /\ size (tool_functions (register nd st2 dup)) = size (tool_functions st2)
  /\ tool_functions (register nd st2 dup) !! reg_name dup
     = Some (reg_function dup).
Proof.
  intros Hempty Hnd Hacc Hold Hdup. split; [|split].
  - rewrite register_all_size; [|done|done|].
    + rewrite Hempty, map_size_empty. lia.
    + intros r _. by rewrite Hempty, lookup_empty.
  - destruct (register_accepted nd st2 dup Hdup) as [-> _].
    by rewrite map_size_insert_Some.
  - destruct (register_accepted nd st2 dup Hdup) as [-> _].
    by rewrite lookup_insert_eq.
Qed.

Example tool_functions_size_example :
  let st := new_state (default_config "A") in
  let regs := [echo_tool "a"; echo_tool "b"; echo_tool "c"] in
  let st2 := foldl (register permissive_declaration) st regs in
  let dup :=
    {| reg_name := "b"; reg_description := "replacement";
       reg_function := fun _ => Returns PyNone;
       reg_parameters := PyDict [] |} in
  size (tool_functions st2) = 3
  /\ size (tool_functions (register permissive_declaration st2 dup)) = 3
  /\ tool_functions (register permissive_declaration st2 dup) !! "b"
     = Some (reg_function dup).
Proof.
  intros st regs st2 dup.
  assert (H3 : size (tool_functions st2) = 3) by reflexivity.
  rewrite <- H3 at 2.
  apply (tool_functions_size permissive_declaration st regs st2 dup
           (reg_function (echo_tool "b"))).
  - reflexivity.
  - compute_done.
  - repeat constructor; eexists; reflexivity.
  - reflexivity.
  - eexists; reflexivity.
Qed.

(** The schema side: [N] accepted registrations leave [N] schemas in
    [tools], whatever their names. *)
Lemma register_all_tools nd regs : forall st,
  Forall (accepted nd) regs ->
  length (tools (foldl (register nd) st regs))
  = length (tools st) + length regs.
Proof.
  induction regs as [|r regs IH]; intros st Hacc; simpl; [lia|].
  apply Forall_cons in Hacc as [Ha Hacc].
  rewrite IH by done. rewrite (add_tool_appends_schema nd st r Ha). lia.
Qed.

(** C7: the code where the claim fails. Registering the name ["echo"] a
    second time replaces the callable, and [tool_functions] keeps one
    entry; but [tools], the schemas sent to the model, gets a second
    declaration of ["echo"]: the registration is duplicated there, not
    overwritten, and the agent holds two tools for one name. *)
Theorem duplicate_registration_duplicates_schema :
  let st1 :=
    register permissive_declaration (new_state (default_config "A"))
      (echo_tool "echo") in
  let st2 := register permissive_declaration st1 replacement_tool in
  (size (tool_functions st1) = 1 /\ length (tools st1) = 1)
  /\ size (tool_functions st2) = 1
  /\ tool_functions st2 !! "echo" = Some (reg_function replacement_tool)
  /\ length (tools st2) = 2
  /\ (fun t => fd_name <$> function_declarations t) <$> tools st2
     = [["echo"]; ["echo"]].
Proof. repeat split; reflexivity. Qed.

(** ** Collaboration *)

Lemma collaborate_unfold me other_agent task :
  let a := name (config (self me)) in
  let b := name (config (self other_agent)) in
  let first := run me task None in
  let second :=
    run other_agent (collaboration_task (content first.2) task)
      (Some (collaboration_context a (content first.2))) in
  collaborate me other_agent task
  = (first.1, second.1, <[b := second.2]> (<[a := first.2]> ∅)).
Proof.
  intros a b first second. unfold collaborate.
  subst first second a b.
  destruct (run me task None) as [me' r1]. simpl.
  by destruct (run other_agent _ _) as [other' r2].
Qed.

(** For two agents with different names, [collaborate] does what its
    docstring says: it
    runs the first on the task, then runs the second on the task text
    ["Build upon this previous work:\n<output>\n\nTask: <task>"] with a
    context whose [previous_agent] entry is the first agent's name and
    whose [previous_response] entry is the first response's content; the
    returned dictionary has exactly the two names as keys, each with its
    agent's response. *)
Lemma collaborate_chains_two_agents me other_agent task :
  let a := name (config (self me)) in
  let b := name (config (self other_agent)) in
  a <> b ->
  exists me' other' my_response other_response context result,
    collaborate me other_agent task = (me', other', result)
    /\ run me task None = (me', my_response)
    /\ run other_agent
         ("Build upon this previous work:" +:+ newline
          +:+ content my_response +:+ newline +:+ newline
          +:+ "Task: " +:+ task)
         (Some context)
       = (other', other_response)
    /\ context !! "previous_agent" = Some (PyStr a)
    /\ context !! "previous_response" = Some (PyStr (content my_response))
    /\ result !! a = Some my_response
    /\ result !! b = Some other_response
    /\ size result = 2.
Proof.
  intros a b Hne.
  pose proof (collaborate_unfold me other_agent task) as Hc.
  cbv zeta in Hc. fold a b in Hc.
  destruct (run me task None) as [me' r1] eqn:E1. simpl in Hc.
  destruct (run other_agent _ _) as [other' r2] eqn:E2. simpl in Hc.
  exists me', other', r1, r2, (collaboration_context a (content r1)),
    (<[b := r2]> (<[a := r1]> ∅)).
  split; [done|]. split; [done|]. split; [exact E2|].
  split; [done|]. split; [by apply lookup_insert_eq|].
  split; [by rewrite lookup_insert_ne, lookup_insert_eq|].
  split; [by apply lookup_insert_eq|].
  rewrite map_size_insert_None by (by rewrite lookup_insert_ne).
  by rewrite map_size_insert_None, map_size_empty.
Qed.

Example collaborate_two_test_agents :
  exists me' other' my_response other_response context result,
    collaborate (TestAgent "Agent1") (TestAgent "Agent2") "topic X"
    = (me', other', result)
    /\ run (TestAgent "Agent1") "topic X" None = (me', my_response)
    /\ run (TestAgent "Agent2")
         ("Build upon this previous work:" +:+ newline
          +:+ content my_response +:+ newline +:+ newline
          +:+ "Task: " +:+ "topic X")
         (Some context)
       = (other', other_response)
    /\ context !! "previous_agent" = Some (PyStr "Agent1")
    /\ context !! "previous_response" = Some (PyStr (content my_response))
    /\ result !! "Agent1" = Some my_response
    /\ result !! "Agent2" = Some other_response
    /\ size result = 2.
Proof.
  apply (collaborate_chains_two_agents (TestAgent "Agent1")
           (TestAgent "Agent2") "topic X").
  compute_done.
Qed.

(** C8: the code where the claim fails. When the two agents carry the
    same name, as two agents built from one default configuration do, the
    second entry of the returned dictionary replaces the first: the
    dictionary has one key and the first agent's response is not in it,
    although the docstring promises the responses of both agents. *)
Theorem collaborate_same_name_keeps_one :
  exists me' other' result my_response,
    collaborate (TestAgent "Agent") (TestAgent "Agent") "topic X"
    = (me', other', result)
    /\ run (TestAgent "Agent") "topic X" None = (me', my_response)
    /\ size result = 1
    /\ forall k, result !! k <> Some my_response.
Proof.
  eexists _, _, _, _. split; [reflexivity|]. split; [reflexivity|].
  split; [reflexivity|].
  intros k. destruct (decide (k = "Agent")) as [->|Hk].
  - rewrite lookup_insert_eq. intros [=].
  - rewrite !lookup_insert_ne by done. by rewrite lookup_empty.
Qed.

(** ** Synthesis *)

(** C4: with an empty list of results, [_synthesize_results] returns a
    response with status [COMPLETED] and content
    ["No results to synthesize"], and sends no message to the model,
    whatever the model and the turn budget. *)
Theorem synthesize_nothing fuel orch original_task :
  _synthesize_results fuel orch [] original_task
  = ([],
     Some {| agent_name := name (config (base orch));
             content := "No results to synthesize";
             status := COMPLETED; metadata := ∅; tool_calls := [];
             error := None |}).
Proof. reflexivity. Qed.

(** With results and a model, on the contrary, the prompt is sent. *)
Lemma synthesize_some_calls_model fuel orch gm r results original_task :
  model (base orch) = Some gm ->
  exists rest,
    (_synthesize_results fuel orch (r :: results) original_task).1
    = first_message (base orch) (synthesis_prompt (r :: results) original_task)
      :: rest.
Proof.
  intros Hm. unfold _synthesize_results.
  destruct (generate_with_tools_sent fuel (base orch) gm
              (synthesis_prompt (r :: results) original_task) Hm)
    as [rest Hrest].
  exists rest. by destruct (generate_with_tools _ _ _) as [sent resp].
Qed.

(** ** Workflows *)

Lemma for_enumerate_invariant {A S : Type} (P : S -> Prop)
    (body : nat -> A -> S -> S) :
  (forall i x s, P s -> P (body i x s)) ->
  forall xs i s, P s -> P (for_enumerate body i xs s).
Proof.
  intros Hbody xs. induction xs as [|x xs IH]; intros i s Hs; simpl; [done|].
  by apply IH, Hbody.
Qed.

Lemma for_enumerate_app {A S : Type} (body : nat -> A -> S -> S) xs :
  forall ys i s,
    for_enumerate body i (xs ++ ys) s
    = for_enumerate body (i + length xs) ys (for_enumerate body i xs s).
Proof.
  induction xs as [|x xs IH]; intros ys i s; simpl.
  - by rewrite Nat.add_0_r.
  - rewrite IH. f_equal. lia.
Qed.

Lemma sequential_step_unregistered i t w :
  wf_agents w !! ti_agent_name t = None -> sequential_step i t w = w.
Proof. unfold sequential_step. cbv zeta. by intros ->. Qed.

Lemma sequential_step_registered i t w agent :
  wf_agents w !! ti_agent_name t = Some agent ->
  let context := sequential_context i t w in
  let call := run agent (ti_task t) (Some context) in
  sequential_step i t w
  = {| wf_agents := <[ti_agent_name t := call.1]> (wf_agents w);
       wf_store :=
         if (0 <? i)%nat then write_context (wf_store w) t context
         else wf_store w;
       wf_results := wf_results w ++ [call.2];
       wf_dispatched :=
         wf_dispatched w
         ++ [{| d_index := i; d_agent_name := ti_agent_name t;
                d_task := ti_task t; d_context := context;
                d_response := call.2 |}] |}.
Proof.
  intros Hag context call. subst call context.
  unfold sequential_step, sequential_context. cbv zeta. rewrite Hag.
  destruct (0 <? i)%nat; by destruct (run agent _ _).
Qed.

Lemma parallel_step_unregistered i t w :
  wf_agents w !! ti_agent_name t = None -> parallel_step i t w = w.
Proof. unfold parallel_step. cbv zeta. by intros ->. Qed.

Lemma parallel_step_registered i t w agent :
  wf_agents w !! ti_agent_name t = Some agent ->
  let context := get_context (wf_store w) t in
  let call := run agent (ti_task t) (Some context) in
  parallel_step i t w
  = {| wf_agents := <[ti_agent_name t := call.1]> (wf_agents w);
       wf_store := wf_store w;
       wf_results := wf_results w ++ [call.2];
       wf_dispatched :=
         wf_dispatched w
         ++ [{| d_index := i; d_agent_name := ti_agent_name t;
                d_task := ti_task t; d_context := context;
                d_response := call.2 |}] |}.
Proof.
  intros Hag context call. subst call context.
  unfold parallel_step. cbv zeta. rewrite Hag.
  by destruct (run agent _ _).
Qed.

Lemma sequential_step_dispatches : dispatches sequential_step.
Proof.
  intros i t w. destruct (wf_agents w !! ti_agent_name t) as [agent|] eqn:E.
  - rewrite (sequential_step_registered i t w agent E). by eexists _, _, _, _.
  - by apply sequential_step_unregistered.
Qed.

Lemma parallel_step_dispatches : dispatches parallel_step.
Proof.
  intros i t w. destruct (wf_agents w !! ti_agent_name t) as [agent|] eqn:E.
  - rewrite (parallel_step_registered i t w agent E). by eexists _, _, _, _.
  - by apply parallel_step_unregistered.
Qed.

Section Dispatching.
Variable step : nat -> TaskInfo -> Workflow -> Workflow.
Hypothesis Hstep : dispatches step.

(** No step adds or removes a name of the registry. *)
Lemma step_keeps_names i t w n :
  is_Some (wf_agents (step i t w) !! n) <-> is_Some (wf_agents w !! n).
Proof.
  specialize (Hstep i t w).
  destruct (wf_agents w !! ti_agent_name t) as [agent|] eqn:E.
  - destruct Hstep as (agent' & store & context & response & ->). simpl.
    destruct (decide (n = ti_agent_name t)) as [->|Hne].
    + rewrite lookup_insert_eq, E. split; eauto.
    + by rewrite lookup_insert_ne.
  - by rewrite Hstep.
Qed.

Lemma loop_keeps_names tasks i w n :
  is_Some (wf_agents (for_enumerate step i tasks w) !! n)
  <-> is_Some (wf_agents w !! n).
Proof.
  apply (for_enumerate_invariant
           (fun w' => is_Some (wf_agents w' !! n)
                      <-> is_Some (wf_agents w !! n))); [|done].
  intros j x s Hs. by rewrite step_keeps_names.
Qed.

(** The responses of the dispatch entries are the list [results]. *)
Lemma step_keeps_alignment i t w :
  d_response <$> wf_dispatched w = wf_results w ->
  d_response <$> wf_dispatched (step i t w) = wf_results (step i t w).
Proof.
  intros Hal. specialize (Hstep i t w).
  destruct (wf_agents w !! ti_agent_name t) as [agent|].
  - destruct Hstep as (agent' & store & context & response & ->). simpl.
    by rewrite fmap_app, Hal.
  - by rewrite Hstep.
Qed.

Lemma loop_keeps_alignment tasks i w :
  d_response <$> wf_dispatched w = wf_results w ->
  d_response <$> wf_dispatched (for_enumerate step i tasks w)
  = wf_results (for_enumerate step i tasks w).
Proof.
  apply (for_enumerate_invariant
           (fun w' => d_response <$> wf_dispatched w' = wf_results w')).
  intros j x s. apply step_keeps_alignment.
Qed.

(** The indices of the dispatch entries are the positions of the steps
    whose agent is registered, in increasing order. *)
Lemma loop_dispatch_indices (agents : gmap string BaseAgent) tasks :
  forall pre w,
  (forall n, is_Some (wf_agents w !! n) <-> is_Some (agents !! n)) ->
  d_index <$> wf_dispatched (for_enumerate step (length pre) tasks w)
  = (d_index <$> wf_dispatched w)
    ++ filter
         (fun j => is_Some ((pre ++ tasks) !! j
                            ≫= fun t => agents !! ti_agent_name t))
         (seq (length pre) (length tasks)).
Proof.
  induction tasks as [|t tasks IH]; intros pre w Hdom; simpl.
  - by rewrite filter_nil, app_nil_r.
  - replace (S (length pre)) with (length (pre ++ [t]))
      by (rewrite length_app; simpl; lia).
    rewrite (IH (pre ++ [t]) (step (length pre) t w));
      [|intros n; by rewrite step_keeps_names].
    rewrite <- (app_assoc pre [t] tasks). simpl.
    rewrite filter_cons.
    rewrite (list_lookup_middle pre tasks t (length pre) eq_refl). simpl.
    rewrite length_app. simpl.
    replace (length pre + 1) with (S (length pre)) by lia.
    specialize (Hstep (length pre) t w).
    destruct (decide (is_Some (agents !! ti_agent_name t))) as [Hreg|Hreg].
    + apply Hdom in Hreg as [agent Hag]. rewrite Hag in Hstep.
      destruct Hstep as (agent' & store & context & response & ->). simpl.
      rewrite fmap_app. simpl. by rewrite <- app_assoc.
    + destruct (wf_agents w !! ti_agent_name t) as [agent|] eqn:E.
      * exfalso. apply Hreg, Hdom. by rewrite E.
      * by rewrite Hstep.
Qed.

(** Every dispatch entry carries the names of the step at its index. *)
Lemma loop_dispatch_from_step tasks : forall pre w,
  Forall (from_step (pre ++ tasks)) (wf_dispatched w) ->
  Forall (from_step (pre ++ tasks))
    (wf_dispatched (for_enumerate step (length pre) tasks w)).
Proof.
  induction tasks as [|t tasks IH]; intros pre w Hall; simpl; [done|].
  replace (S (length pre)) with (length (pre ++ [t]))
    by (rewrite length_app; simpl; lia).
  rewrite (app_assoc pre [t] tasks : pre ++ t :: tasks = _) in *.
  apply IH. rewrite <- app_assoc. simpl.
  rewrite <- app_assoc in Hall. simpl in Hall.
  specialize (Hstep (length pre) t w).
  destruct (wf_agents w !! ti_agent_name t) as [agent|].
  - destruct Hstep as (agent' & store & context & response & ->). simpl.
    apply Forall_app. split; [done|].
    apply Forall_singleton. exists t. simpl.
    by rewrite list_lookup_middle.
  - by rewrite Hstep.
Qed.
End Dispatching.

Lemma workflow_dispatched_in_order step orch store tasks :
  dispatches step ->
  dispatched_in_order orch tasks
    (for_enumerate step 0 tasks (start_workflow orch store)).
Proof.
  intros Hstep. split; [|split].
  - pose proof (loop_dispatch_indices step Hstep (registered_agents orch)
                  tasks [] (start_workflow orch store)) as Hidx.
    simpl in Hidx. by apply Hidx.
  - by apply loop_keeps_alignment.
  - pose proof (loop_dispatch_from_step step Hstep tasks []
                  (start_workflow orch store)) as Hfrom.
    simpl in Hfrom. by apply Hfrom.
Qed.

(** C6: in both workflows, the calls of [agent.run] are made for exactly
    the steps whose agent name is registered, in input order, wherever the
    unregistered steps stand in the list; the returned list holds the
    responses of these calls in that order, and nothing for a skipped
    step. *)
Theorem workflows_skip_unregistered_steps orch store tasks w :
  w = execute_sequential_workflow orch store tasks
  \/ w = execute_parallel_workflow orch store tasks ->
  d_index <$> wf_dispatched w
  = filter
      (fun j => is_Some (tasks !! j
                         ≫= fun t => registered_agents orch !! ti_agent_name t))
      (seq 0 (length tasks))
  /\ wf_results w = d_response <$> wf_dispatched w
  /\ forall d,
       d ∈ wf_dispatched w ->
       exists t,
         tasks !! d_index d = Some t
         /\ ti_agent_name t = d_agent_name d
         /\ ti_task t = d_task d.
Proof.
  intros Hw.
  assert (dispatched_in_order orch tasks w) as (Hidx & Hres & Hfrom).
  { destruct Hw as [-> | ->].
    - apply workflow_dispatched_in_order, sequential_step_dispatches.
    - apply workflow_dispatched_in_order, parallel_step_dispatches. }
  split; [done|]. split; [done|].
  intros d Hd. rewrite Forall_forall in Hfrom. by apply Hfrom.
Qed.

Lemma workflows_skip_unregistered_steps_witness :
  let w := execute_parallel_workflow demo_orchestrator demo_store
             tasks_with_unknown_agent in
  d_index <$> wf_dispatched w
  = filter
      (fun j => is_Some (tasks_with_unknown_agent !! j
                         ≫= fun t => registered_agents demo_orchestrator
                                       !! ti_agent_name t))
      (seq 0 (length tasks_with_unknown_agent))
  /\ wf_results w = d_response <$> wf_dispatched w
  /\ forall d,
       d ∈ wf_dispatched w ->
       exists t,
         tasks_with_unknown_agent !! d_index d = Some t
         /\ ti_agent_name t = d_agent_name d
         /\ ti_task t = d_task d.
Proof.
  intros w.
  apply (workflows_skip_unregistered_steps demo_orchestrator demo_store
           tasks_with_unknown_agent w).
  right. reflexivity.
Defined.

(** The returned list has one response per registered step. *)
Corollary workflow_result_count step orch store tasks :
  dispatches step ->
  length (wf_results (for_enumerate step 0 tasks (start_workflow orch store)))
  = length
      (filter
         (fun j => is_Some (tasks !! j
                            ≫= fun t => registered_agents orch !! ti_agent_name t))
         (seq 0 (length tasks))).
Proof.
  intros Hstep.
  destruct (workflow_dispatched_in_order step orch store tasks Hstep)
    as (Hidx & Hres & _).
  by rewrite <- Hidx, <- Hres, !length_fmap.
Qed.

Example skipped_step_leaves_no_entry :
  let w := execute_sequential_workflow demo_orchestrator demo_store
             tasks_with_unknown_agent in
  d_index <$> wf_dispatched w = [0; 2]
  /\ agent_name <$> wf_results w = ["ResearcherAgent"; "AnalyzerAgent"]
  /\ filter
       (fun j => is_Some (tasks_with_unknown_agent !! j
                          ≫= fun t => registered_agents demo_orchestrator
                                        !! ti_agent_name t))
       (seq 0 (length tasks_with_unknown_agent))
     = [0; 2].
Proof. repeat split; reflexivity. Qed.

(** *** Context propagation in the sequential workflow *)

(** Case analysis on the registry check of a sequential step. *)
Ltac sequential_step_cases i t w :=
  let agent := fresh "agent" in
  let E := fresh "E" in
  destruct (wf_agents w !! ti_agent_name t) as [agent|] eqn:E;
  [ rewrite (sequential_step_registered i t w agent E); cbv zeta
  | rewrite (sequential_step_unregistered i t w E) ].

Lemma sequential_step_previous_results i t w :
  previous_results_passed w ->
  previous_results_passed (sequential_step i t w).
Proof.
  intros Hinv. sequential_step_cases i t w; [|done].
  destruct Hinv as [Hal Hprev].
  assert (Hlen : length (wf_dispatched w) = length (wf_results w))
    by (by rewrite <- Hal, length_fmap).
  split; simpl.
  - by rewrite fmap_app, Hal.
  - intros k d Hk Hpos.
    apply lookup_app_Some in Hk as [Hk | [Hge Hk]].
    + rewrite take_app_le; [by apply Hprev|].
      apply lookup_lt_Some in Hk. lia.
    + destruct (k - length (wf_dispatched w)) as [|?] eqn:Ek; [|done].
      simpl in Hk. injection Hk as <-. simpl in *.
      replace k with (length (wf_results w)) by lia.
      rewrite take_app_length. unfold sequential_context.
      destruct (0 <? i)%nat eqn:Hi.
      * by rewrite lookup_insert_eq.
      * apply Nat.ltb_ge in Hi. lia.
Qed.

Lemma sequential_workflow_previous_results orch store tasks :
  previous_results_passed (execute_sequential_workflow orch store tasks).
Proof.
  apply (for_enumerate_invariant previous_results_passed).
  - apply sequential_step_previous_results.
  - split; [done|]. intros k d Hk. simpl in Hk. by rewrite lookup_nil in Hk.
Qed.

(** C5: in a sequential workflow, the context passed to the agent of a
    step with index greater than 0 has a ["previous_results"] entry: the
    list of the contents of the responses of all steps executed before
    it, in order. *)
Theorem sequential_step_sees_previous_results orch store tasks k d :
  let w := execute_sequential_workflow orch store tasks in
  wf_dispatched w !! k = Some d ->
  0 < d_index d ->
  d_context d !! "previous_results"
  = Some (PyList ((fun r => PyStr (content r)) <$> take k (wf_results w)))
  /\ take k (wf_results w) = d_response <$> take k (wf_dispatched w).
Proof.
  intros w Hk Hpos.
  destruct (sequential_workflow_previous_results orch store tasks)
    as [Hal Hprev].
  split.
  - by apply Hprev.
  - fold w in Hal. by rewrite fmap_take, Hal.
Qed.

Lemma sequential_step_sees_previous_results_witness :
  d_context demo_second_dispatch !! "previous_results"
  = Some (PyList
            ((fun r => PyStr (content r))
             <$> take 1 (wf_results
                           (execute_sequential_workflow demo_orchestrator
                              demo_store demo_tasks))))
  /\ take 1 (wf_results
               (execute_sequential_workflow demo_orchestrator demo_store
                  demo_tasks))
     = d_response
       <$> take 1 (wf_dispatched
                     (execute_sequential_workflow demo_orchestrator
                        demo_store demo_tasks)).
Proof.
  apply (sequential_step_sees_previous_results demo_orchestrator demo_store
           demo_tasks 1 demo_second_dispatch).
  - vm_compute. reflexivity.
  - simpl. lia.
Defined.

(** A workflow of two steps whose agents are registered: the context of
    the second step holds the content of the first response. *)
Corollary two_step_workflow_context orch store s1 s2 :
  is_Some (registered_agents orch !! ti_agent_name s1) ->
  is_Some (registered_agents orch !! ti_agent_name s2) ->
  exists d1 d2,
    wf_dispatched (execute_sequential_workflow orch store [s1; s2]) = [d1; d2]
    /\ wf_results (execute_sequential_workflow orch store [s1; s2])
       = [d_response d1; d_response d2]
    /\ d_context d2 !! "previous_results"
       = Some (PyList [PyStr (content (d_response d1))]).
Proof.
  intros H1 H2.
  destruct (workflow_dispatched_in_order sequential_step orch store [s1; s2]
              sequential_step_dispatches) as (Hidx & Hres & _).
  destruct (sequential_workflow_previous_results orch store [s1; s2])
    as [_ Hprev].
  unfold execute_sequential_workflow in *.
  simpl seq in Hidx.
  rewrite filter_cons_True in Hidx by done.
  rewrite filter_cons_True in Hidx by done.
  rewrite filter_nil in Hidx.
  destruct (wf_dispatched _) as [|d1 [|d2 [|d3 ds]]] eqn:Ed; try done.
  simpl in Hidx. injection Hidx as Hi1 Hi2.
  exists d1, d2. split; [done|]. split; [done|].
  specialize (Hprev 1 d2 eq_refl). rewrite <- Hres in Hprev. simpl in Hprev.
  apply Hprev. lia.
Qed.

(** *** In-place update of the callers' dictionaries *)

Lemma sequential_step_framed store0 i t w :
  framed store0 w -> framed store0 (sequential_step i t w).
Proof.
  intros Hfr. sequential_step_cases i t w; [|done].
  intros r. unfold touched. simpl.
  destruct (0 <? i)%nat eqn:Hi; [|apply Hfr].
  unfold write_context, sequential_context, get_context. rewrite Hi.
  destruct (ti_context t) as [r'|]; [|apply Hfr].
  destruct (decide (r = r')) as [->|Hne].
  - right. rewrite lookup_insert_eq.
    destruct (Hfr r') as [Hsame | [v Hv]].
    + rewrite Hsame. by eexists.
    + rewrite Hv. simpl. rewrite insert_insert_eq. by eexists.
  - rewrite lookup_insert_ne by done. apply Hfr.
Qed.

Lemma sequential_step_touched store0 r i t w :
  touched store0 r w -> touched store0 r (sequential_step i t w).
Proof.
  intros [v Hv]. sequential_step_cases i t w; [|by exists v].
  unfold touched. simpl.
  destruct (0 <? i)%nat eqn:Hi; [|by exists v].
  unfold write_context, sequential_context, get_context. rewrite Hi.
  destruct (ti_context t) as [r'|]; [|by exists v].
  destruct (decide (r = r')) as [<-|Hne].
  - rewrite lookup_insert_eq, Hv. simpl. rewrite insert_insert_eq.
    by eexists.
  - rewrite lookup_insert_ne by done. by exists v.
Qed.

Lemma sequential_step_writes store0 r i t w :
  framed store0 w ->
  is_Some (wf_agents w !! ti_agent_name t) ->
  0 < i ->
  ti_context t = Some r ->
  touched store0 r (sequential_step i t w).
Proof.
  intros Hfr [agent E] Hi Hctx.
  rewrite (sequential_step_registered i t w agent E). cbv zeta.
  unfold touched. simpl.
  apply Nat.ltb_lt in Hi.
  unfold write_context, sequential_context, get_context. rewrite Hi, Hctx.
  rewrite lookup_insert_eq.
  destruct (Hfr r) as [Hsame | [v Hv]].
  - rewrite Hsame. by eexists.
  - rewrite Hv. simpl. rewrite insert_insert_eq. by eexists.
Qed.

(** C10 (as amended): after [execute_sequential_workflow], for every step
    with index greater than 0 whose agent is registered and whose
    dictionary has a ["context"] entry, the caller's dictionary at that
    reference is the one the caller supplied with a ["previous_results"]
    entry written into it. *)
Theorem sequential_workflow_updates_caller_context orch store tasks i t r :
  tasks !! i = Some t ->
  0 < i ->
  ti_context t = Some r ->
  is_Some (registered_agents orch !! ti_agent_name t) ->
  exists v d,
    wf_store (execute_sequential_workflow orch store tasks) !! r = Some d
    /\ d = <["previous_results" := v]> (default ∅ (store !! r))
    /\ d !! "previous_results" = Some v.
Proof.
  intros Ht Hi Hctx Hreg.
  assert (touched store r (execute_sequential_workflow orch store tasks))
    as [v Hv].
  { unfold execute_sequential_workflow.
    rewrite <- (take_drop_middle tasks i t Ht).
    rewrite for_enumerate_app. simpl.
    apply (for_enumerate_invariant (touched store r)).
    - intros j x s. apply sequential_step_touched.
    - apply sequential_step_writes.
      + apply (for_enumerate_invariant (framed store)).
        * intros j x s. apply sequential_step_framed.
        * intros r'. by left.
      + by apply (loop_keeps_names sequential_step sequential_step_dispatches).
      + rewrite length_take. apply lookup_lt_Some in Ht. lia.
      + done. }
  exists v, (<["previous_results" := v]> (default ∅ (store !! r))).
  split; [done|]. split; [done|]. by rewrite lookup_insert_eq.
Qed.

Lemma sequential_workflow_updates_caller_context_witness :
  exists v d,
    wf_store (execute_sequential_workflow demo_orchestrator demo_store
                demo_tasks) !! 2 = Some d
    /\ d = <["previous_results" := v]> (default ∅ (demo_store !! 2))
    /\ d !! "previous_results" = Some v.
Proof.
  apply (sequential_workflow_updates_caller_context demo_orchestrator
           demo_store demo_tasks 1
           {| ti_agent_name := "AnalyzerAgent"; ti_task := "Analyze findings";
              ti_context := Some 2 |} 2).
  - reflexivity.
  - lia.
  - reflexivity.
  - vm_compute. eauto.
Defined.

(** C10 (as stated) fails for a step whose agent is not registered: the
    second step of [tasks_with_unknown_agent] has index 1 and carries the
    dictionary at reference 2, and that dictionary is still empty after
    the workflow. *)
Lemma skipped_step_context_untouched :
  tasks_with_unknown_agent !! 1
  = Some {| ti_agent_name := "WriterAgent"; ti_task := "Write report";
            ti_context := Some 2 |}
  /\ exists d,
       wf_store (execute_sequential_workflow demo_orchestrator demo_store
                   tasks_with_unknown_agent) !! 2 = Some d
       /\ d !! "previous_results" = None.
Proof. split; [reflexivity|]. exists ∅. split; reflexivity. Qed.

(** * Further properties *)

(** ** The conversation loop, continued *)

Lemma generate_with_tools_first_reply fuel st gm prompt response :
  model st = Some gm ->
  gm [first_message st prompt] = Returns response ->
  generate_try fuel st gm prompt
  = tool_loop fuel st gm [first_message st prompt] response [].
Proof.
  intros Hm Hgm. unfold generate_try, send_message. simpl app.
  by rewrite Hgm.
Qed.

Lemma tool_loop_ends fuel st gm chat response tool_calls :
  ends_conversation response ->
  tool_loop (S fuel) st gm chat response tool_calls
  = (chat, Finished response tool_calls).
Proof.
  intros (c & cs & Hc & [Hp | (t & ps & Hp)]); simpl; by rewrite Hc, Hp.
Qed.

Lemma tool_loop_call fuel st gm chat response tool_calls c cs fc ps response' :
  candidates response = c :: cs ->
  parts c = PartFunctionCall fc :: ps ->
  gm (chat ++ [function_response fc (_handle_tool_call st fc)])
  = Returns response' ->
  tool_loop (S fuel) st gm chat response tool_calls
  = tool_loop fuel st gm
      (chat ++ [function_response fc (_handle_tool_call st fc)]) response'
      (tool_calls ++ [tool_call_record fc (_handle_tool_call st fc)]).
Proof.
  intros Hc Hp Hgm. simpl. rewrite Hc, Hp. unfold send_message.
  by rewrite Hgm.
Qed.

(** When the loop finishes, the messages it added to the session are the
    function responses of the records it added, in order, and the final
    reply is one that ends the conversation. *)
Lemma tool_loop_finished fuel :
  forall st gm chat response tool_calls sent final recs,
    tool_loop fuel st gm chat response tool_calls
    = (sent, Finished final recs) ->
    ends_conversation final
    /\ exists new_recs,
         recs = tool_calls ++ new_recs
         /\ sent = chat ++ (record_message <$> new_recs)
         /\ Forall (record_of_handler st) new_recs.
Proof.
  induction fuel as [|fuel IH];
    intros st gm chat response tcs sent final recs; simpl; [done|].
  destruct (candidates response) as [|c cs] eqn:Hc; [done|].
  destruct (parts c) as [|[fc|t] ps] eqn:Hp.
  - intros [= <- <- <-]. split; [exists c, cs; by eauto|].
    exists []. by rewrite !app_nil_r.
  - destruct (gm _) as [response'|e'] eqn:Egm; [|done].
    intros H. apply IH in H as (Hend & new_recs & -> & -> & Hall).
    split; [done|].
    exists (tool_call_record fc (_handle_tool_call st fc) :: new_recs).
    rewrite <- !app_assoc. split; [done|]. split; [done|].
    constructor; [|done]. unfold record_of_handler. simpl. by destruct fc.
  - intros [= <- <- <-]. split; [exists c, cs; by eauto|].
    exists []. by rewrite !app_nil_r.
Qed.

(** X1: the transcript of a completed call. When [generate_with_tools]
    returns a [COMPLETED] response, the messages it sent are the prompt
    followed by one function response per entry of [tool_calls], in the
    same order, and each entry holds what [_handle_tool_call] gives for
    its name and arguments. *)
Theorem completed_call_transcript fuel st gm prompt sent r :
  model st = Some gm ->
  generate_with_tools fuel st prompt = (sent, Some r) ->
  status r = COMPLETED ->
  sent = first_message st prompt :: (record_message <$> tool_calls r)
  /\ Forall (record_of_handler st) (tool_calls r).
Proof.
  intros Hm Hgen Hst. unfold generate_with_tools in Hgen. rewrite Hm in Hgen.
  destruct (generate_try fuel st gm prompt)
    as [sent' [final recs|e recs|recs|]] eqn:Etry;
    simplify_eq/=.
  unfold generate_try, send_message in Etry. simpl app in Etry.
  destruct (gm _) as [response|e]; [|done].
  apply tool_loop_finished in Etry as (_ & new_recs & -> & -> & Hall).
  by simpl.
Qed.

Lemma completed_call_transcript_witness :
  [MsgPrompt "question" None;
   function_response lookup_call (error_dict "Tool not found: lookup")]
  = first_message (state_with_model "A" one_call_model) "question"
    :: (record_message
        <$> [tool_call_record lookup_call
               (error_dict "Tool not found: lookup")])
  /\ Forall (record_of_handler (state_with_model "A" one_call_model))
       [tool_call_record lookup_call (error_dict "Tool not found: lookup")].
Proof.
  apply (completed_call_transcript 3 (state_with_model "A" one_call_model)
           one_call_model "question" _
           {| agent_name := "A"; content := "done"; status := COMPLETED;
              metadata :=
                generation_metadata (state_with_model "A" one_call_model);
              tool_calls :=
                [tool_call_record lookup_call
                   (error_dict "Tool not found: lookup")];
              error := None |});
    reflexivity.
Defined.

(** X2: the two shapes of a response of [generate_with_tools]. It carries
    the agent's name and is either [COMPLETED], without error and with the
    model's name and temperature as metadata, or [FAILED], with an error
    message, empty content, no tool call and no metadata. *)
Theorem generate_with_tools_response_shape fuel st prompt sent r :
  generate_with_tools fuel st prompt = (sent, Some r) ->
  agent_name r = name (config st)
  /\ ((status r = COMPLETED /\ error r = None
       /\ metadata r !! "model" = Some (PyStr (model_name (config st)))
       /\ metadata r !! "temperature"
          = Some (PyFloat (temperature (config st))))
      \/ (status r = FAILED /\ is_Some (error r) /\ content r = ""
          /\ tool_calls r = [] /\ metadata r = ∅)).
Proof.
  unfold generate_with_tools.
  destruct (model st) as [gm|].
  - destruct (generate_try fuel st gm prompt)
      as [sent' [final recs|e recs|recs|]]; intros [= <- <-]; simpl;
      (split; [done|]); try (right; by eauto).
    left. unfold generation_metadata. by repeat split.
  - intros [= <- <-]. simpl. split; [done|]. right. by eauto.
Qed.

Lemma generate_with_tools_response_shape_witness :
  agent_name (failed_response (state_with_model "A" dropping_model)
                "503 connection reset")
  = name (config (state_with_model "A" dropping_model))
  /\ ((status (failed_response (state_with_model "A" dropping_model)
                 "503 connection reset") = COMPLETED
       /\ error (failed_response (state_with_model "A" dropping_model)
                   "503 connection reset") = None
       /\ metadata (failed_response (state_with_model "A" dropping_model)
                      "503 connection reset") !! "model"
          = Some (PyStr (model_name
                           (config (state_with_model "A" dropping_model))))
       /\ metadata (failed_response (state_with_model "A" dropping_model)
                      "503 connection reset") !! "temperature"
          = Some (PyFloat (temperature
                             (config (state_with_model "A" dropping_model)))))
      \/ (status (failed_response (state_with_model "A" dropping_model)
                    "503 connection reset") = FAILED
          /\ is_Some (error (failed_response
                               (state_with_model "A" dropping_model)
                               "503 connection reset"))
          /\ content (failed_response (state_with_model "A" dropping_model)
                        "503 connection reset") = ""
          /\ tool_calls (failed_response (state_with_model "A" dropping_model)
                           "503 connection reset") = []
          /\ metadata (failed_response (state_with_model "A" dropping_model)
                         "503 connection reset") = ∅)).
Proof.
  apply (generate_with_tools_response_shape 7
           (state_with_model "A" dropping_model) "question"
           [MsgPrompt "question" None;
            function_response lookup_call
              (error_dict "Tool not found: lookup")]).
  reflexivity.
Defined.

(** X3: a reply without candidates. [response.candidates[0]] then raises
    inside the [try] block, and the call returns a [FAILED] response whose
    error is the text of the index error; the prompt is the only message
    sent. *)
Theorem reply_without_candidates_fails fuel st gm prompt response :
  model st = Some gm ->
  gm [first_message st prompt] = Returns response ->
  candidates response = [] ->
  0 < fuel ->
  generate_with_tools fuel st prompt
  = ([first_message st prompt],
     Some {| agent_name := name (config st); content := "";
             status := FAILED; metadata := ∅; tool_calls := [];
             error := Some "list index out of range" |}).
Proof.
  intros Hm Hgm Hc Hfuel. unfold generate_with_tools. rewrite Hm.
  rewrite (generate_with_tools_first_reply fuel st gm prompt response)
    by done.
  destruct fuel as [|fuel]; [lia|]. simpl. by rewrite Hc.
Qed.

Lemma reply_without_candidates_fails_witness :
  generate_with_tools 1 (state_with_model "A" blocked_model) "question"
  = ([first_message (state_with_model "A" blocked_model) "question"],
     Some {| agent_name := "A"; content := ""; status := FAILED;
             metadata := ∅; tool_calls := [];
             error := Some "list index out of range" |}).
Proof.
  apply (reply_without_candidates_fails 1 (state_with_model "A" blocked_model)
           blocked_model "question"
           {| candidates := []; text := None; repr := "<blocked>" |});
    (reflexivity || lia).
Defined.

(** X4: only the first part of the first candidate is looked at. A reply
    whose first candidate has no part, or opens with a part that is not a
    function call, ends the call at once: the response is [COMPLETED] with
    the reply's text, no tool is run, also when a later part asks for one,
    and nothing is sent after the prompt. *)
Theorem reply_opening_with_text_completes fuel st gm prompt response :
  model st = Some gm ->
  gm [first_message st prompt] = Returns response ->
  ends_conversation response ->
  0 < fuel ->
  generate_with_tools fuel st prompt
  = ([first_message st prompt],
     Some {| agent_name := name (config st);
             content := final_text response;
             status := COMPLETED; metadata := generation_metadata st;
             tool_calls := []; error := None |}).
Proof.
  intros Hm Hgm Hend Hfuel. unfold generate_with_tools. rewrite Hm.
  rewrite (generate_with_tools_first_reply fuel st gm prompt response)
    by done.
  destruct fuel as [|fuel]; [lia|]. by rewrite tool_loop_ends.
Qed.

Lemma reply_opening_with_text_completes_witness :
  generate_with_tools 1 (state_with_model "A" text_then_call_model) "question"
  = ([first_message (state_with_model "A" text_then_call_model) "question"],
     Some {| agent_name := "A"; content := "thinking"; status := COMPLETED;
             metadata :=
               generation_metadata (state_with_model "A" text_then_call_model);
             tool_calls := []; error := None |}).
Proof.
  apply (reply_opening_with_text_completes 1
           (state_with_model "A" text_then_call_model) text_then_call_model
           "question"
           {| candidates :=
                [{| parts := [PartText "thinking";
                              PartFunctionCall lookup_call] |}];
              text := Some "thinking"; repr := "thinking" |}).
  - reflexivity.
  - reflexivity.
  - eexists _, _. split; [reflexivity|]. right. by eexists _, _.
  - lia.
Defined.

(** X5: a tool that raises does not end the conversation. When the model
    asks for a registered tool and the tool raises [e], the error
    [{"error": "Tool execution failed: <e>"}] is recorded and sent back;
    if the model then answers, the call is [COMPLETED] with that answer
    and exactly this one record. *)
Theorem raising_tool_is_reported_to_model
    fuel st gm prompt f e fc resp1 c cs ps resp2 :
  model st = Some gm ->
  tool_functions st !! fc_name fc = Some f ->
  f (fc_args fc) = Raises e ->
  gm [first_message st prompt] = Returns resp1 ->
  candidates resp1 = c :: cs ->
  parts c = PartFunctionCall fc :: ps ->
  let result := PyDict [("error", PyStr ("Tool execution failed: " +:+ str e))] in
  let reply := MsgFunctionResponse (fc_name fc) (PyDict [("result", result)]) in
  gm [first_message st prompt; reply] = Returns resp2 ->
  ends_conversation resp2 ->
  2 <= fuel ->
  generate_with_tools fuel st prompt
  = ([first_message st prompt; reply],
     Some {| agent_name := name (config st); content := final_text resp2;
             status := COMPLETED; metadata := generation_metadata st;
             tool_calls :=
               [{| tc_function := fc_name fc; tc_args := fc_args fc;
                   tc_result := result |}];
             error := None |}).
Proof.
  intros Hm Hf He Hg1 Hc Hp result reply Hg2 Hend Hfuel.
  unfold generate_with_tools. rewrite Hm.
  rewrite (generate_with_tools_first_reply fuel st gm prompt resp1) by done.
  destruct fuel as [|[|fuel]]; [lia|lia|].
  assert (Hh : _handle_tool_call st fc = result).
  { unfold _handle_tool_call. cbv zeta. by rewrite Hf, He. }
  rewrite (tool_loop_call (S fuel) st gm [first_message st prompt] resp1 []
             c cs fc ps resp2 Hc Hp);
    [|by rewrite Hh].
  rewrite tool_loop_ends by done.
  unfold function_response, tool_call_record. by rewrite Hh.
Qed.

Lemma raising_tool_is_reported_to_model_witness :
  generate_with_tools 2 (state_with_failing_tool one_call_model) "question"
  = ([first_message (state_with_failing_tool one_call_model) "question";
      MsgFunctionResponse "lookup"
        (PyDict [("result",
                  PyDict [("error", PyStr "Tool execution failed: 'k'")])])],
     Some {| agent_name := "A"; content := "done"; status := COMPLETED;
             metadata :=
               generation_metadata (state_with_failing_tool one_call_model);
             tool_calls :=
               [{| tc_function := "lookup"; tc_args := [("key", PyStr "k")];
                   tc_result :=
                     PyDict [("error",
                              PyStr "Tool execution failed: 'k'")] |}];
             error := None |}).
Proof.
  apply (raising_tool_is_reported_to_model 2
           (state_with_failing_tool one_call_model) one_call_model "question"
           (fun _ => Raises key_error) key_error lookup_call
           (tool_request lookup_call)
           {| parts := [PartFunctionCall lookup_call] |} [] []
           (answer "done")).
  - reflexivity.
  - reflexivity.
  - reflexivity.
  - reflexivity.
  - reflexivity.
  - reflexivity.
  - reflexivity.
  - eexists _, _. split; [reflexivity|]. right. by eexists _, _.
  - lia.
Defined.

(** ** Registration and lookup of tools *)

(** X6: what [add_tool] stores is what [_handle_tool_call] runs. After an
    accepted registration of [tool_function] under [tool_name], a call of
    that name yields the function's result, or the error dictionary when
    it raises; calls of any other name are handled as before. *)
Theorem add_tool_then_handle_tool_call
    (nd : DeclarationConstructor) st tool_name description
    (tool_function : ToolFunction) parameters fd fc :
  nd tool_name description parameters = Returns fd ->
  let st' := add_tool nd st tool_name description tool_function parameters in
  (fc_name fc = tool_name ->
   _handle_tool_call st' fc
   = match tool_function (fc_args fc) with
     | Returns result => result
     | Raises e =>
         PyDict [("error", PyStr ("Tool execution failed: " +:+ str e))]
     end)
  /\ (fc_name fc <> tool_name ->
      _handle_tool_call st' fc = _handle_tool_call st fc).
Proof.
  intros Hnd st'. subst st'. unfold add_tool. rewrite Hnd.
  unfold _handle_tool_call. cbv zeta. simpl. split.
  - intros ->. by rewrite lookup_insert_eq.
  - intros Hne. by rewrite lookup_insert_ne.
Qed.

Lemma add_tool_then_handle_tool_call_witness :
  let st' :=
    add_tool permissive_declaration (new_state (default_config "A")) "echo"
      "echoes its arguments" (fun args => Returns (PyDict args))
      (PyDict [("type", PyStr "object")]) in
  (fc_name {| fc_name := "echo"; fc_args := [("x", PyInt 5)] |} = "echo" ->
   _handle_tool_call st' {| fc_name := "echo"; fc_args := [("x", PyInt 5)] |}
   = match Returns (PyDict [("x", PyInt 5)]) with
     | Returns result => result
     | Raises e =>
         PyDict [("error", PyStr ("Tool execution failed: " +:+ str e))]
     end)
  /\ (fc_name {| fc_name := "echo"; fc_args := [("x", PyInt 5)] |} <> "echo" ->
      _handle_tool_call st'
        {| fc_name := "echo"; fc_args := [("x", PyInt 5)] |}
      = _handle_tool_call (new_state (default_config "A"))
          {| fc_name := "echo"; fc_args := [("x", PyInt 5)] |}).
Proof.
  apply (add_tool_then_handle_tool_call permissive_declaration
           (new_state (default_config "A")) "echo" "echoes its arguments"
           (fun args => Returns (PyDict args))
           (PyDict [("type", PyStr "object")])
           {| fd_name := "echo"; fd_description := "echoes its arguments";
              fd_parameters := PyDict [("type", PyStr "object")] |}
           {| fc_name := "echo"; fc_args := [("x", PyInt 5)] |}).
  reflexivity.
Defined.

(** X7: the schemas of registered tools reach the model. After an
    accepted [add_tool], every call of [generate_with_tools] on an agent
    with a model opens the conversation with the prompt and the agent's
    tools, the new schema last. *)
Theorem registered_schema_is_sent
    (nd : DeclarationConstructor) st gm tool_name description
    (tool_function : ToolFunction) parameters fd fuel prompt :
  nd tool_name description parameters = Returns fd ->
  model st = Some gm ->
  exists rest,
    (generate_with_tools fuel
       (add_tool nd st tool_name description tool_function parameters)
       prompt).1
    = MsgPrompt prompt
        (Some (tools st ++ [{| function_declarations := [fd] |}]))
      :: rest.
Proof.
  intros Hnd Hm.
  set (st' := add_tool nd st tool_name description tool_function parameters).
  assert (Hst' : model st' = Some gm /\
                 tools st' = tools st ++ [{| function_declarations := [fd] |}]).
  { subst st'. unfold add_tool. by rewrite Hnd. }
  destruct Hst' as [Hm' Ht'].
  destruct (generate_with_tools_sent fuel st' gm prompt Hm') as [rest Hrest].
  exists rest. rewrite Hrest. unfold first_message. rewrite Ht'.
  by destruct (tools st).
Qed.

Lemma registered_schema_is_sent_witness :
  exists rest,
    (generate_with_tools 3
       (add_tool permissive_declaration (state_with_model "A" one_call_model)
          "echo" "echoes its arguments" (fun args => Returns (PyDict args))
          (PyDict [("type", PyStr "object")]))
       "question").1
    = MsgPrompt "question"
        (Some (tools (state_with_model "A" one_call_model)
               ++ [{| function_declarations :=
                        [{| fd_name := "echo";
                            fd_description := "echoes its arguments";
                            fd_parameters :=
                              PyDict [("type", PyStr "object")] |}] |}]))
      :: rest.
Proof.
  apply (registered_schema_is_sent permissive_declaration
           (state_with_model "A" one_call_model) one_call_model);
    reflexivity.
Defined.

(** ** The [run] boundary, continued *)

Lemma set_status_twice s s' st :
  set_status s (set_status s' st) = set_status s st.
Proof. reflexivity. Qed.

(** The body of [run] does not depend on the status the agent had. *)
Lemma run_try_with_status s ag task context :
  run_try (with_status s ag) task context = run_try ag task context.
Proof. reflexivity. Qed.

Lemma run_with_status s ag task context :
  run (with_status s ag) task context = run ag task context.
Proof.
  unfold run. rewrite run_try_with_status.
  by destruct (run_try ag task context).
Qed.

(** X8: what [run] changes and how it ends. [run] changes nothing of the
    agent but its status. Either the three methods returned: the status is
    [COMPLETED] and the response is the post-processed one; or one of them
    raised: the status is [FAILED] and the response is [FAILED] with empty
    content, no tool call and the prefixed text of the exception. The
    agent is never left [IDLE] or [RUNNING]. *)
Theorem run_changes_status_only ag task context :
  let ag' := (run ag task context).1 in
  let r := (run ag task context).2 in
  methods ag' = methods ag
  /\ config (self ag') = config (self ag)
  /\ tools (self ag') = tools (self ag)
  /\ tool_functions (self ag') = tool_functions (self ag)
  /\ model (self ag') = model (self ag)
  /\ ((agent_status (self ag') = COMPLETED
       /\ run_try ag task context = Returns r)
      \/ (agent_status (self ag') = FAILED
          /\ status r = FAILED /\ content r = "" /\ tool_calls r = []
          /\ exists e,
               run_try ag task context = Raises e
               /\ error r = Some ("Agent execution failed: " +:+ str e))).
Proof.
  intros ag' r. subst ag' r.
  destruct (run_exits ag task context)
    as [(r & Htry & ->) | (e & Htry & ->)]; simpl.
  - repeat (split; [done|]). by left.
  - repeat (split; [done|]). right. repeat (split; [done|]). by exists e.
Qed.

(** An earlier run leaves no trace in a later one: [run] sets the status
    before it calls the methods. *)
Lemma run_after_run ag task context task' context' :
  run (run ag task context).1 task' context' = run ag task' context'.
Proof.
  destruct (run_exits ag task context)
    as [(r & _ & ->) | (e & _ & ->)]; simpl; apply run_with_status.
Qed.

(** ** Collaboration, continued *)

(** X9: a failure of the first agent does not stop the collaboration.
    When one of its methods raises, the second agent is still run: on the
    derived task with an empty previous work, and with an empty
    [previous_response]; its response is in the returned dictionary. *)
Theorem collaborate_after_failure me other_agent task e :
  run_try me task None = Raises e ->
  let a := name (config (self me)) in
  let b := name (config (self other_agent)) in
  let second :=
    run other_agent
      ("Build upon this previous work:" +:+ newline +:+ newline +:+ newline
       +:+ "Task: " +:+ task)
      (Some (<["previous_response" := PyStr ""]>
               (<["previous_agent" := PyStr a]> ∅))) in
  exists result,
    collaborate me other_agent task
    = (with_status FAILED me, second.1, result)
    /\ result !! b = Some second.2
    /\ (a <> b ->
        result !! a
        = Some (failed_response (self me)
                  ("Agent execution failed: " +:+ str e))).
Proof.
  intros Htry a b second.
  pose proof (collaborate_unfold me other_agent task) as Hc.
  cbv zeta in Hc. rewrite (run_raises me task None e Htry) in Hc.
  simpl in Hc. eexists. split; [exact Hc|]. split.
  - by rewrite lookup_insert_eq.
  - intros Hne. by rewrite lookup_insert_ne, lookup_insert_eq.
Qed.

Lemma collaborate_after_failure_witness :
  let second :=
    run (TestAgent "Agent2")
      ("Build upon this previous work:" +:+ newline +:+ newline +:+ newline
       +:+ "Task: " +:+ "topic X")
      (Some (<["previous_response" := PyStr ""]>
               (<["previous_agent" := PyStr "R"]> ∅))) in
  exists result,
    collaborate (RaisingAgent "R") (TestAgent "Agent2") "topic X"
    = (with_status FAILED (RaisingAgent "R"), second.1, result)
    /\ result !! "Agent2" = Some second.2
    /\ ("R" <> "Agent2" ->
        result !! "R"
        = Some (failed_response (self (RaisingAgent "R"))
                  ("Agent execution failed: " +:+ str value_error))).
Proof.
  apply (collaborate_after_failure (RaisingAgent "R") (TestAgent "Agent2")
           "topic X" value_error).
  reflexivity.
Defined.

(** ** Construction of an agent *)

Lemma py_or_truthy a b :
  truthy (py_or a b) = truthy a || truthy b.
Proof. unfold py_or. by destruct (truthy a) eqn:E; rewrite ?E. Qed.

Lemma _initialize_vertexai_needs_project platform cfg settings :
  truthy (project_id cfg) = false ->
  truthy (env_PROJECT_ID platform) = false ->
  _initialize_vertexai platform cfg settings = false.
Proof.
  intros Hc He. unfold _initialize_vertexai. cbv zeta.
  pose proof (py_or_truthy (project_id cfg) (env_PROJECT_ID platform)) as H.
  rewrite Hc, He in H. simpl in H.
  by destruct (py_or _ _) as [[|a p]|].
Qed.

(** X10: limited mode. When neither the configuration nor the
    environment gives a non-empty project id, the construction succeeds
    without any SDK call mattering: the new agent is [IDLE], has no tool
    and no model, and every [generate_with_tools] call on it returns a
    [FAILED] response ["Model not initialized"] without sending
    anything. *)
Theorem agent_without_project_is_limited platform cfg settings fuel prompt :
  truthy (project_id cfg) = false ->
  truthy (env_PROJECT_ID platform) = false ->
  let st := init_agent platform cfg settings in
  agent_status st = IDLE /\ tools st = [] /\ tool_functions st = ∅
  /\ model st = None
  /\ generate_with_tools fuel st prompt
     = ([],
        Some {| agent_name := name cfg; content := ""; status := FAILED;
                metadata := ∅; tool_calls := [];
                error := Some "Model not initialized" |}).
Proof.
  intros Hc He st.
  assert (Hm : model st = None).
  { subst st. unfold init_agent. simpl.
    by rewrite _initialize_vertexai_needs_project. }
  repeat (split; [done|]).
  by rewrite generate_with_tools_no_model.
Qed.

Lemma agent_without_project_is_limited_witness :
  let st :=
    init_agent (working_sdk (Some "")) (config_with_project "A" None)
      default_settings in
  agent_status st = IDLE /\ tools st = [] /\ tool_functions st = ∅
  /\ model st = None
  /\ generate_with_tools 5 st "question"
     = ([],
        Some {| agent_name := "A"; content := ""; status := FAILED;
                metadata := ∅; tool_calls := [];
                error := Some "Model not initialized" |}).
Proof.
  apply (agent_without_project_is_limited (working_sdk (Some ""))
           (config_with_project "A" None) default_settings 5 "question");
    reflexivity.
Defined.

(** X11: when a new agent has a model. The project id is the one of the
    configuration if that is not empty, and else the one of the
    environment; the location is the one of the configuration if that is
    not empty, and else the environment's, and else ["us-central1"]. The
    agent has the model [gm] exactly when the project id is not empty,
    [vertexai.init] returns for that project and location, and the two
    constructors return, the second one [gm]. In every other case,
    including an SDK call that raises, the construction still succeeds and
    the agent has no model. *)
Theorem new_agent_model platform cfg settings gm :
  let project :=
    if truthy (project_id cfg) then project_id cfg
    else env_PROJECT_ID platform in
  let place :=
    match location settings with
    | String _ _ => location settings
    | EmptyString => default "us-central1" (env_LOCATION platform)
    end in
  model (init_agent platform cfg settings) = Some gm
  <-> exists p generation_config,
        project = Some p /\ p <> ""
        /\ vertexai_init platform p place = Returns tt
        /\ new_generation_config platform (temperature cfg)
             (top_p settings) (top_k settings) (max_tokens settings)
           = Returns generation_config
        /\ new_generative_model platform (model_name cfg) generation_config
             (system_prompt cfg)
           = Returns gm.
Proof.
  intros project place.
  assert (Hv : _initialize_vertexai platform cfg settings
               = match project with
                 | Some (String a p) =>
                     match vertexai_init platform (String a p) place with
                     | Returns _ => true
                     | Raises _ => false
                     end
                 | _ => false
                 end).
  { subst project place. unfold _initialize_vertexai, py_or. cbv zeta.
    by destruct (location settings). }
  unfold init_agent, _initialize_model. simpl model. rewrite Hv. clear Hv.
  destruct project as [[|a p]|].
  - split; [done|]. by intros (p & gc & [= <-] & Hne & _).
  - split.
    + destruct (vertexai_init platform (String a p) place) as [[]|e] eqn:Ei;
        [|done].
      destruct (new_generation_config _ _ _ _ _) as [gc|e] eqn:Egc; [|done].
      destruct (new_generative_model _ _ _ _) as [gm'|e] eqn:Egm; [|done].
      intros [= <-]. by exists (String a p), gc.
    + intros (p' & gc & [= <-] & _ & Hi & Hgc & Hgm).
      by rewrite Hi, Hgc, Hgm.
  - split; [done|]. by intros (p & gc & [=] & _).
Qed.

(** ** The orchestrator as an agent *)

Lemma with_status_id ag : with_status (agent_status (self ag)) ag = ag.
Proof. by destruct ag as [[] ?]. Qed.

Lemma run_keeps_agent ag task context :
  exists s, (run ag task context).1 = with_status s ag.
Proof.
  destruct (run_exits ag task context)
    as [(r & _ & ->) | (e & _ & ->)]; by eexists.
Qed.

Lemma tracks_refl registry : tracks registry registry.
Proof.
  intros n. destruct (registry !! n) as [a|] eqn:E; [|done].
  exists (agent_status (self a)). by rewrite with_status_id.
Qed.

Lemma tracks_run registry agents n a s task context :
  tracks registry agents ->
  registry !! n = Some a ->
  tracks registry (<[n := (run (with_status s a) task context).1]> agents).
Proof.
  intros Htr Hn m. destruct (decide (m = n)) as [->|Hne].
  - rewrite Hn, lookup_insert_eq. rewrite run_with_status.
    destruct (run_keeps_agent a task context) as [s' ->]. by exists s'.
  - rewrite lookup_insert_ne by done. apply Htr.
Qed.

Lemma _execute_workflow_step_tracks plan registry agents results n :
  tracks registry agents ->
  exists agents',
    tracks registry agents'
    /\ _execute_workflow_step plan (agents, results) n
       = (agents',
          results
          ++ omap (response_of registry (plan_task plan) (plan_context plan))
               [n]).
Proof.
  intros Htr. pose proof (Htr n) as Hn.
  unfold _execute_workflow_step, response_of. simpl.
  destruct (registry !! n) as [a|] eqn:E.
  - destruct Hn as [s Hs]. rewrite Hs. simpl.
    pose proof (tracks_run registry agents n a s (plan_task plan)
                  (Some (plan_context plan)) Htr E) as Htr'.
    rewrite run_with_status in *.
    destruct (run a (plan_task plan) (Some (plan_context plan)))
      as [a' r].
    by exists (<[n := a']> agents).
  - rewrite Hn. simpl. exists agents. by rewrite app_nil_r.
Qed.

Lemma _execute_workflow_fold plan registry names : forall agents results,
  tracks registry agents ->
  tracks registry
    (foldl (_execute_workflow_step plan) (agents, results) names).1
  /\ (foldl (_execute_workflow_step plan) (agents, results) names).2
     = results
       ++ omap (response_of registry (plan_task plan) (plan_context plan))
            names.
Proof.
  induction names as [|n names IH]; intros agents results Htr.
  - simpl. by rewrite app_nil_r.
  - destruct (_execute_workflow_step_tracks plan registry agents results n Htr)
      as (agents' & Htr' & Hstep).
    cbn [foldl]. rewrite Hstep.
    destruct (IH agents'
                (results
                 ++ omap (response_of registry (plan_task plan)
                            (plan_context plan)) [n]) Htr')
      as [Htr'' Hres].
    split; [done|]. rewrite Hres, <- app_assoc. f_equal.
    simpl. by destruct (response_of _ _ _ n).
Qed.

(** X12: [_execute_workflow] runs every needed agent on its own. The
    returned list holds, in the order of [agents_needed], the response of
    each agent that is registered to the task and the context of the plan;
    a name that is not registered adds nothing. No response depends on
    what the agents before did, and afterwards the registry holds the same
    agents, each with some status. *)
Theorem _execute_workflow_responses orch plan :
  (_execute_workflow orch plan).2
  = omap (fun n =>
            (fun a => (run a (plan_task plan) (Some (plan_context plan))).2)
            <$> registered_agents orch !! n)
      (agents_needed plan)
  /\ forall n,
       match registered_agents orch !! n with
       | None => (_execute_workflow orch plan).1 !! n = None
       | Some a =>
           exists s,
             (_execute_workflow orch plan).1 !! n = Some (with_status s a)
       end.
Proof.
  destruct (_execute_workflow_fold plan (registered_agents orch)
              (agents_needed plan) (registered_agents orch) []
              (tracks_refl _)) as [Htr Hres].
  split; [exact Hres|exact Htr].
Qed.

Lemma keys_of_length orch keys :
  keys_of orch keys -> length keys = size (registered_agents orch).
Proof.
  intros [Hnd Hin].
  rewrite <- (size_dom (D := gset string)).
  rewrite <- (size_list_to_set (C := gset string) keys Hnd).
  f_equal. apply set_eq. intros n.
  by rewrite elem_of_list_to_set, elem_of_dom, Hin.
Qed.

Lemma omap_all_some {A B : Type} (f : A -> option B) (l : list A) :
  (forall x, x ∈ l -> is_Some (f x)) -> length (omap f l) = length l.
Proof.
  induction l as [|x l IH]; intros Hall; simpl; [done|].
  destruct (Hall x) as [y Hy]; [by left|]. rewrite Hy. simpl.
  f_equal. apply IH. intros z Hz. apply Hall. by right.
Qed.

Lemma keys_of_empty orch keys :
  registered_agents orch = ∅ -> keys_of orch keys -> keys = [].
Proof.
  intros Hempty [_ Hin]. destruct keys as [|n keys]; [done|].
  assert (Hn : is_Some (registered_agents orch !! n)) by (apply Hin; by left).
  rewrite Hempty, lookup_empty in Hn. by destruct Hn.
Qed.

(** X13: an orchestrator without registered agents. Its [process_task]
    returns the [COMPLETED] response ["No results to synthesize"], sends
    nothing to the model and leaves the orchestrator as it was, whatever
    the task, the context and the model. *)
Theorem orchestrator_without_agents fuel orch keys task context :
  registered_agents orch = ∅ ->
  keys_of orch keys ->
  orchestrator_process_task fuel orch keys task context
  = (orch, [],
     Some {| agent_name := name (config (base orch));
             content := "No results to synthesize";
             status := COMPLETED; metadata := ∅; tool_calls := [];
             error := None |}).
Proof.
  intros Hempty Hkeys.
  rewrite (keys_of_empty orch keys Hempty Hkeys).
  unfold orchestrator_process_task, _execute_workflow. simpl.
  rewrite Hempty. destruct orch as [b reg]. simpl in *. by subst.
Qed.

Lemma orchestrator_without_agents_witness :
  let orch :=
    {| base := state_with_model "OrchestratorAgent" one_call_model;
       registered_agents := ∅ |} in
  orchestrator_process_task 5 orch [] "task" None
  = (orch, [],
     Some {| agent_name := "OrchestratorAgent";
             content := "No results to synthesize";
             status := COMPLETED; metadata := ∅; tool_calls := [];
             error := None |}).
Proof.
  intros orch.
  apply (orchestrator_without_agents 5 orch [] "task" None).
  - reflexivity.
  - split; [constructor|]. intros n. split.
    + intros H. by apply elem_of_nil in H.
    + intros [a Ha]. simpl in Ha. by rewrite lookup_empty in Ha.
Defined.

(** ** Synthesis, continued *)

Lemma _synthesize_results_nonempty fuel orch results task sent r :
  results <> [] ->
  _synthesize_results fuel orch results task = (sent, Some r) ->
  exists g,
    generate_with_tools fuel (base orch) (synthesis_prompt results task)
    = (sent, Some g)
    /\ r = add_contributors results g.
Proof.
  intros Hne. unfold _synthesize_results.
  destruct results as [|r0 rest]; [done|].
  destruct (generate_with_tools _ _ _) as [sent' [g|]]; simpl; [|done].
  intros [= <- <-]. by exists g.
Qed.

(** X14: what synthesis adds to the model's answer. For a non-empty list
    of results, the response of [_synthesize_results] is the response of
    [generate_with_tools] to the synthesis prompt (same name, content,
    status, tool calls, error and messages sent) whose metadata got two
    entries: the number of results under ["num_agents"] and their agents'
    names, in order, under ["contributing_agents"]; the other entries are
    unchanged. This holds also when the model call failed. *)
Theorem synthesis_records_contributors fuel orch results task sent r :
  results <> [] ->
  _synthesize_results fuel orch results task = (sent, Some r) ->
  exists g,
    generate_with_tools fuel (base orch) (synthesis_prompt results task)
    = (sent, Some g)
    /\ agent_name r = agent_name g /\ content r = content g
    /\ status r = status g /\ tool_calls r = tool_calls g
    /\ error r = error g
    /\ metadata r !! "num_agents"
       = Some (PyInt (Z.of_nat (length results)))
    /\ metadata r !! "contributing_agents"
       = Some (PyList ((fun x => PyStr (agent_name x)) <$> results))
    /\ forall k,
         k <> "num_agents" -> k <> "contributing_agents" ->
         metadata r !! k = metadata g !! k.
Proof.
  intros Hne Hsyn.
  destruct (_synthesize_results_nonempty fuel orch results task sent r
              Hne Hsyn) as (g & Hg & ->).
  exists g. split; [done|]. unfold add_contributors. simpl.
  repeat (split; [done|]). split; [by rewrite lookup_insert_eq|].
  split; [by rewrite lookup_insert_ne, lookup_insert_eq|].
  intros k Hk1 Hk2. by rewrite !lookup_insert_ne.
Qed.

Lemma synthesis_records_contributors_witness :
  let orch :=
    {| base := new_state (default_config "OrchestratorAgent");
       registered_agents := ∅ |} in
  let results :=
    [failed_response (new_state (default_config "ResearcherAgent")) "boom"] in
  let r :=
    add_contributors results
      (failed_response (base orch) "Model not initialized") in
  exists g,
    generate_with_tools 5 (base orch) (synthesis_prompt results "task")
    = ([], Some g)
    /\ agent_name r = agent_name g /\ content r = content g
    /\ status r = status g /\ tool_calls r = tool_calls g
    /\ error r = error g
    /\ metadata r !! "num_agents"
       = Some (PyInt (Z.of_nat (length results)))
    /\ metadata r !! "contributing_agents"
       = Some (PyList ((fun x => PyStr (agent_name x)) <$> results))
    /\ forall k,
         k <> "num_agents" -> k <> "contributing_agents" ->
         metadata r !! k = metadata g !! k.
Proof.
  intros orch results r.
  apply (synthesis_records_contributors 5 orch results "task" [] r).
  - done.
  - reflexivity.
Defined.

(** X15: the orchestrator's answer counts its agents. When the registry
    is not empty and [process_task] returns a response, its ["num_agents"]
    entry is the number of registered agents and its
    ["contributing_agents"] entry lists the names carried by their
    responses, one per registered agent in the order of the keys; the
    orchestrator keeps its own fields and the same registered names. *)
Theorem orchestrator_counts_its_agents
    fuel orch keys task context orch' sent r :
  keys_of orch keys ->
  registered_agents orch <> ∅ ->
  orchestrator_process_task fuel orch keys task context
  = (orch', sent, Some r) ->
  metadata r !! "num_agents"
  = Some (PyInt (Z.of_nat (size (registered_agents orch))))
  /\ (exists results,
        length results = size (registered_agents orch)
        /\ results
           = omap (fun n =>
                     (fun a => (run a task (Some (default ∅ context))).2)
                     <$> registered_agents orch !! n) keys
        /\ metadata r !! "contributing_agents"
           = Some (PyList ((fun x => PyStr (agent_name x)) <$> results)))
  /\ base orch' = base orch
  /\ forall n,
       is_Some (registered_agents orch' !! n)
       <-> is_Some (registered_agents orch !! n).
Proof.
  intros Hkeys Hne. unfold orchestrator_process_task. cbv zeta.
  destruct (_execute_workflow_fold (_plan_workflow keys task context)
              (registered_agents orch) keys (registered_agents orch) []
              (tracks_refl _)) as [Htr Hres].
  unfold _execute_workflow. simpl agents_needed.
  destruct (foldl _ _ keys) as [agents results]. simpl in Htr, Hres.
  assert (Hlen : length results = size (registered_agents orch)).
  { rewrite Hres, <- (keys_of_length orch keys Hkeys).
    apply omap_all_some. intros n Hn. apply Hkeys in Hn as [a Ha].
    unfold response_of. by rewrite Ha. }
  assert (Hnil : results <> []).
  { intros ->. simpl in Hlen. symmetry in Hlen.
    by apply map_size_empty_iff in Hlen. }
  destruct (_synthesize_results fuel orch results task) as [sent' fr] eqn:Es.
  intros [= <- <- ->].
  destruct (_synthesize_results_nonempty fuel orch results task sent' r
              Hnil Es) as (g & _ & ->).
  unfold add_contributors. simpl. split.
  { by rewrite lookup_insert_eq, Hlen. }
  split.
  { exists results. split; [done|]. split; [exact Hres|].
    by rewrite lookup_insert_ne, lookup_insert_eq. }
  split; [done|].
  intros n. specialize (Htr n).
  destruct (registered_agents orch !! n) as [a|].
  - destruct Htr as [s ->]. split; eauto.
  - by rewrite Htr.
Qed.

Lemma orchestrator_counts_its_agents_witness :
  let orch := demo_orchestrator in
  let keys := ["ResearcherAgent"; "AnalyzerAgent"] in
  exists orch' r,
    orchestrator_process_task 5 orch keys "task" None = (orch', [], Some r)
    /\ metadata r !! "num_agents"
       = Some (PyInt (Z.of_nat (size (registered_agents orch))))
    /\ (exists results,
          length results = size (registered_agents orch)
          /\ results
             = omap (fun n =>
                       (fun a => (run a "task" (Some (default ∅ None))).2)
                       <$> registered_agents orch !! n) keys
          /\ metadata r !! "contributing_agents"
             = Some (PyList ((fun x => PyStr (agent_name x)) <$> results)))
    /\ base orch' = base orch
    /\ forall n,
         is_Some (registered_agents orch' !! n)
         <-> is_Some (registered_agents orch !! n).
Proof.
  intros orch keys.
  destruct (orchestrator_process_task 5 orch keys "task" None)
    as [[orch' sent] [r|]] eqn:E; [|by vm_compute in E].
  assert (Hsent : sent = []) by (vm_compute in E; congruence).
  subst sent. exists orch', r. split; [done|].
  apply (orchestrator_counts_its_agents 5 orch keys "task" None orch' [] r).
  - split; [compute_done|]. intros n. subst keys orch.
    rewrite !elem_of_cons, elem_of_nil.
    unfold demo_orchestrator, register_agent. simpl.
    split.
    + intros [-> | [-> | []]]; eexists; reflexivity.
    + intros [a Ha].
      destruct (decide (n = "AnalyzerAgent")) as [->|H1]; [by eauto|].
      destruct (decide (n = "ResearcherAgent")) as [->|H2]; [by eauto|].
      by rewrite !lookup_insert_ne, lookup_empty in Ha.
  - intros H. apply (f_equal size) in H. by vm_compute in H.
  - exact E.
Defined.

Lemma string_app_assoc (s1 s2 s3 : string) :
  (s1 +:+ s2) +:+ s3 = s1 +:+ s2 +:+ s3.
Proof.
  induction s1 as [|a s1 IH]; [done|].
  change (String a ((s1 +:+ s2) +:+ s3) = String a (s1 +:+ s2 +:+ s3)).
  by rewrite IH.
Qed.

Lemma synthesis_entries_cons i result rest :
  synthesis_entries i (result :: rest)
  = synthesis_entry i result +:+ synthesis_entries (S i) rest.
Proof.
  unfold synthesis_entry. simpl synthesis_entries.
  by rewrite !string_app_assoc.
Qed.

Lemma synthesis_entries_mention results : forall i k r,
  results !! k = Some r ->
  exists before after,
    synthesis_entries i results
    = before +:+ synthesis_entry (i + k) r +:+ after.
Proof.
  induction results as [|r0 results IH]; intros i k r Hk; [done|].
  rewrite synthesis_entries_cons. destruct k as [|k]; simpl in Hk.
  - injection Hk as ->. exists "", (synthesis_entries (S i) results).
    by rewrite Nat.add_0_r.
  - destruct (IH (S i) k r Hk) as (before & after & ->).
    exists (synthesis_entry i r0 +:+ before), after.
    rewrite string_app_assoc. by replace (S i + k) with (i + S k) by lia.
Qed.

(** X16: every result reaches the synthesis prompt. The prompt opens with
    ["Original Task: "] and the task, and for the result at position [k]
    of the list it contains the lines
    ["Agent <k+1> (<agent name>):\n<content>\n\n"] with the content
    verbatim. *)
Theorem synthesis_prompt_mentions_result results task k r :
  results !! k = Some r ->
  exists before after,
    synthesis_prompt results task
    = ("Original Task: " +:+ task +:+ before)
      +:+ ("Agent " +:+ pretty (S k) +:+ " (" +:+ agent_name r +:+ "):"
           +:+ newline +:+ content r +:+ newline +:+ newline)
      +:+ after.
Proof.
  intros Hk.
  destruct (synthesis_entries_mention results 1 k r Hk)
    as (before & after & Hent).
  exists (newline +:+ newline +:+ "Results from specialized agents:"
          +:+ newline +:+ newline +:+ before),
    (after +:+ synthesis_instructions).
  unfold synthesis_prompt. rewrite Hent. unfold synthesis_entry.
  change (1 + k) with (S k).
  by rewrite !string_app_assoc.
Qed.

Lemma synthesis_prompt_mentions_result_witness :
  exists before after,
    synthesis_prompt
      [failed_response (new_state (default_config "ResearcherAgent")) "boom";
       d_response demo_second_dispatch] "task"
    = ("Original Task: " +:+ "task" +:+ before)
      +:+ ("Agent " +:+ pretty 2 +:+ " (" +:+ "AnalyzerAgent" +:+ "):"
           +:+ newline +:+ "Processed: Analyze findings" +:+ newline
           +:+ newline)
      +:+ after.
Proof.
  apply (synthesis_prompt_mentions_result
           [failed_response (new_state (default_config "ResearcherAgent"))
              "boom";
            d_response demo_second_dispatch] "task" 1
           (d_response demo_second_dispatch)).
  reflexivity.
Defined.

(** ** Registration of agents *)

Lemma register_agent_lookup orch agent n :
  registered_agents (register_agent orch agent) !! n
  = if decide (name (config (self agent)) = n) then Some agent
    else registered_agents orch !! n.
Proof. unfold register_agent. simpl. apply lookup_insert. Qed.

Lemma register_agents_other agents : forall orch n,
  n ∉ ((fun a => name (config (self a))) <$> agents) ->
  registered_agents (foldl register_agent orch agents) !! n
  = registered_agents orch !! n.
Proof.
  induction agents as [|a agents IH]; intros orch n Hn; [done|].
  rewrite fmap_cons, not_elem_of_cons in Hn. destruct Hn as [Hne Hn].
  simpl. rewrite IH by done. rewrite register_agent_lookup.
  by destruct (decide _).
Qed.

(** X17: registered agents are found under their names. After the
    registration of agents with pairwise distinct names on an orchestrator
    without agents, the registry has one entry per agent and each agent is
    found under its name; the orchestrator's own fields are unchanged. *)
Theorem registered_agents_are_found agents orch :
  registered_agents orch = ∅ ->
  NoDup ((fun a => name (config (self a))) <$> agents) ->
  let orch' := foldl register_agent orch agents in
  size (registered_agents orch') = length agents
  /\ base orch' = base orch
  /\ forall a,
       a ∈ agents ->
       registered_agents orch' !! name (config (self a)) = Some a.
Proof.
  intros Hempty Hnd orch'. subst orch'.
  assert (Hgen : forall agents orch,
            NoDup ((fun a => name (config (self a))) <$> agents) ->
            (forall a, a ∈ agents ->
                       registered_agents orch !! name (config (self a)) = None) ->
            size (registered_agents (foldl register_agent orch agents))
            = size (registered_agents orch) + length agents
            /\ base (foldl register_agent orch agents) = base orch
            /\ forall a, a ∈ agents ->
                 registered_agents (foldl register_agent orch agents)
                 !! name (config (self a)) = Some a).
  { clear. induction agents as [|a agents IH]; intros orch Hnd Hfresh; simpl.
    - split; [lia|]. split; [done|]. intros a Ha. by apply elem_of_nil in Ha.
    - rewrite fmap_cons in Hnd. apply NoDup_cons in Hnd as [Ha Hnd].
      destruct (IH (register_agent orch a) Hnd) as (Hsize & Hbase & Hfound).
      { intros b Hb. rewrite register_agent_lookup.
        destruct (decide _) as [Heq|_].
        - exfalso. apply Ha. rewrite Heq.
          by apply (list_elem_of_fmap_2 (fun a => name (config (self a)))).
        - apply Hfresh. by right. }
      split; [|split].
      + rewrite Hsize. unfold register_agent at 1. simpl.
        rewrite map_size_insert_None; [lia|]. apply Hfresh. by left.
      + by rewrite Hbase.
      + intros b Hb. apply elem_of_cons in Hb as [->|Hb]; [|by apply Hfound].
        rewrite register_agents_other by done.
        rewrite register_agent_lookup. by rewrite decide_True. }
  destruct (Hgen agents orch Hnd) as (Hsize & Hbase & Hfound).
  { intros a _. by rewrite Hempty, lookup_empty. }
  split; [|done]. rewrite Hsize, Hempty, map_size_empty. lia.
Qed.

Lemma registered_agents_are_found_witness :
  let agents := [TestAgent "ResearcherAgent"; TestAgent "AnalyzerAgent"] in
  let orch :=
    {| base := new_state (default_config "OrchestratorAgent");
       registered_agents := ∅ |} in
  let orch' := foldl register_agent orch agents in
  size (registered_agents orch') = length agents
  /\ base orch' = base orch
  /\ forall a,
       a ∈ agents ->
       registered_agents orch' !! name (config (self a)) = Some a.
Proof.
  intros agents orch.
  apply (registered_agents_are_found agents orch).
  - reflexivity.
  - compute_done.
Defined.

(** ** Workflows, continued *)

Lemma parallel_step_independent registry store i t w :
  tracks registry (wf_agents w) ->
  wf_store w = store ->
  tracks registry (wf_agents (parallel_step i t w))
  /\ wf_store (parallel_step i t w) = store
  /\ wf_results (parallel_step i t w)
     = wf_results w
       ++ omap (fun t =>
                  response_of registry (ti_task t) (get_context store t)
                    (ti_agent_name t))
            [t].
Proof.
  intros Htr Hst. pose proof (Htr (ti_agent_name t)) as Hn.
  simpl omap. unfold response_of.
  destruct (registry !! ti_agent_name t) as [a|] eqn:E.
  - destruct Hn as [s Hs].
    rewrite (parallel_step_registered i t w _ Hs). cbv zeta. simpl.
    rewrite Hst. split; [by apply tracks_run|]. split; [done|].
    by rewrite run_with_status.
  - rewrite (parallel_step_unregistered i t w Hn). simpl.
    by rewrite app_nil_r.
Qed.

Lemma parallel_loop_independent registry store tasks : forall i w,
  tracks registry (wf_agents w) ->
  wf_store w = store ->
  tracks registry (wf_agents (for_enumerate parallel_step i tasks w))
  /\ wf_store (for_enumerate parallel_step i tasks w) = store
  /\ wf_results (for_enumerate parallel_step i tasks w)
     = wf_results w
       ++ omap (fun t =>
                  response_of registry (ti_task t) (get_context store t)
                    (ti_agent_name t))
            tasks.
Proof.
  induction tasks as [|t tasks IH]; intros i w Htr Hst.
  - simpl. by rewrite app_nil_r.
  - destruct (parallel_step_independent registry store i t w Htr Hst)
      as (Htr' & Hst' & Hres').
    destruct (IH (S i) (parallel_step i t w) Htr' Hst')
      as (Htr'' & Hst'' & Hres'').
    cbn [for_enumerate]. split; [done|]. split; [done|].
    rewrite Hres'', Hres', <- app_assoc. f_equal.
    simpl. by destruct (response_of _ _ _ _).
Qed.

(** X18: the steps of a parallel workflow are independent. The returned
    list holds, in input order, the response of each step whose agent is
    registered to that step's task and to the context the caller gave it;
    it is what each agent would answer if it were called alone, so no step
    sees the output of another. The callers' dictionaries are left as they
    were, and the registry holds the same agents, each with some
    status. *)
Theorem parallel_workflow_steps_are_independent orch store tasks :
  let w := execute_parallel_workflow orch store tasks in
  wf_results w
  = omap (fun t =>
            (fun a => (run a (ti_task t) (Some (get_context store t))).2)
            <$> registered_agents orch !! ti_agent_name t)
      tasks
  /\ wf_store w = store
  /\ forall n,
       match registered_agents orch !! n with
       | None => wf_agents w !! n = None
       | Some a => exists s, wf_agents w !! n = Some (with_status s a)
       end.
Proof.
  intros w. subst w. unfold execute_parallel_workflow.
  destruct (parallel_loop_independent (registered_agents orch) store tasks 0
              (start_workflow orch store) (tracks_refl _) eq_refl)
    as (Htr & Hst & Hres).
  split; [exact Hres|]. split; [exact Hst|exact Htr].
Qed.

(** *** The contexts of a sequential workflow *)

Lemma framed_insert_context store0 w t c :
  framed store0 w ->
  <["previous_results" := c]> (get_context (wf_store w) t)
  = <["previous_results" := c]> (get_context store0 t).
Proof.
  intros Hfr. unfold get_context. destruct (ti_context t) as [r|]; [|done].
  destruct (Hfr r) as [-> | [v ->]]; [done|].
  simpl. by rewrite insert_insert_eq.
Qed.

Lemma sequential_loop_contexts store0 tasks : forall pre w,
  framed store0 w ->
  (length pre = 0 -> wf_store w = store0) ->
  d_response <$> wf_dispatched w = wf_results w ->
  (forall k d,
     wf_dispatched w !! k = Some d ->
     exists t,
       (pre ++ tasks) !! d_index d = Some t
       /\ d_context d
          = if (0 <? d_index d)%nat
            then <["previous_results" := contents (take k (wf_results w))]>
                   (get_context store0 t)
            else get_context store0 t) ->
  let w' := for_enumerate sequential_step (length pre) tasks w in
  forall k d,
    wf_dispatched w' !! k = Some d ->
    exists t,
      (pre ++ tasks) !! d_index d = Some t
      /\ d_context d
         = if (0 <? d_index d)%nat
           then <["previous_results" := contents (take k (wf_results w'))]>
                  (get_context store0 t)
           else get_context store0 t.
Proof.
  induction tasks as [|t tasks IH]; intros pre w Hfr Hzero Hal Hctx; simpl.
  - by rewrite app_nil_r in *.
  - replace (S (length pre)) with (length (pre ++ [t]))
      by (rewrite length_app; simpl; lia).
    rewrite (app_assoc pre [t] tasks : pre ++ t :: tasks = _) in *.
    apply IH.
    + by apply sequential_step_framed.
    + rewrite length_app. simpl. lia.
    + by apply (step_keeps_alignment sequential_step
                  sequential_step_dispatches).
    + sequential_step_cases (length pre) t w; [|done]. simpl.
      assert (Hlen : length (wf_dispatched w) = length (wf_results w))
        by (by rewrite <- Hal, length_fmap).
      intros k d Hk.
      apply lookup_app_Some in Hk as [Hk | [Hge Hk]].
      * destruct (Hctx k d Hk) as (t' & Ht' & Hd).
        exists t'. split; [done|]. rewrite take_app_le; [done|].
        apply lookup_lt_Some in Hk. lia.
      * destruct (k - length (wf_dispatched w)) as [|?] eqn:Ek; [|done].
        simpl in Hk. injection Hk as <-. simpl.
        exists t. split.
        { rewrite <- app_assoc. simpl. by rewrite list_lookup_middle. }
        replace k with (length (wf_results w)) by lia.
        rewrite take_app_length. unfold sequential_context.
        destruct (0 <? length pre)%nat eqn:Hi.
        -- by apply framed_insert_context.
        -- apply Nat.ltb_ge in Hi. rewrite Hzero by lia. done.
Qed.

(** X19: the context each sequential step receives, in terms of what the
    caller supplied. The step at index 0 receives the caller's dictionary
    as it is (an empty one when the step has none); every later step
    receives the caller's dictionary with ["previous_results"] set to the
    contents of the responses obtained before it, over any value the
    caller or an earlier step had put there. *)
Theorem sequential_step_context orch store tasks k d :
  let w := execute_sequential_workflow orch store tasks in
  wf_dispatched w !! k = Some d ->
  exists t,
    tasks !! d_index d = Some t
    /\ d_context d
       = if (0 <? d_index d)%nat
         then <["previous_results" :=
                  PyList ((fun r => PyStr (content r))
                          <$> take k (wf_results w))]>
                (get_context store t)
         else get_context store t.
Proof.
  intros w Hk. subst w.
  apply (sequential_loop_contexts store tasks [] (start_workflow orch store));
    try done.
  intros r. by left.
Qed.

Lemma sequential_step_context_witness :
  exists t,
    demo_tasks !! d_index demo_second_dispatch = Some t
    /\ d_context demo_second_dispatch
       = if (0 <? d_index demo_second_dispatch)%nat
         then <["previous_results" :=
                  PyList ((fun r => PyStr (content r))
                          <$> take 1
                                (wf_results
                                   (execute_sequential_workflow
                                      demo_orchestrator demo_store
                                      demo_tasks)))]>
                (get_context demo_store t)
         else get_context demo_store t.
Proof.
  apply (sequential_step_context demo_orchestrator demo_store demo_tasks 1
           demo_second_dispatch).
  vm_compute. reflexivity.
Defined.

(** *** What a sequential workflow leaves in the callers' dictionaries *)

Lemma sequential_loop_keeps_other_references r tasks : forall i w,
  (forall t, t ∈ tasks -> ti_context t <> Some r) ->
  wf_store (for_enumerate sequential_step i tasks w) !! r = wf_store w !! r.
Proof.
  induction tasks as [|t tasks IH]; intros i w Hno; simpl; [done|].
  rewrite IH by (intros t' Ht'; apply Hno; by right).
  sequential_step_cases i t w; [|done]. simpl.
  destruct (0 <? i)%nat; [|done].
  unfold write_context.
  destruct (ti_context t) as [r'|] eqn:Er; [|done].
  rewrite lookup_insert_ne; [done|].
  intros ->. by apply (Hno t); [left|].
Qed.

(** X20: a sequential workflow writes nothing but ["previous_results"].
    Every dictionary of the caller is afterwards as the caller left it or
    differs from that by its ["previous_results"] entry only, so every
    other key reads as before; a dictionary that no step carries as its
    context is not touched at all. *)
Theorem sequential_workflow_writes_previous_results_only orch store tasks r :
  let w := execute_sequential_workflow orch store tasks in
  (wf_store w !! r = store !! r
   \/ exists v,
        wf_store w !! r
        = Some (<["previous_results" := v]> (default ∅ (store !! r))))
  /\ (forall k,
        k <> "previous_results" ->
        default ∅ (wf_store w !! r) !! k = default ∅ (store !! r) !! k)
  /\ ((forall t, t ∈ tasks -> ti_context t <> Some r) ->
      wf_store w !! r = store !! r).
Proof.
  intros w. subst w.
  assert (Hfr : framed store (execute_sequential_workflow orch store tasks)).
  { apply (for_enumerate_invariant (framed store)).
    - intros j x s. apply sequential_step_framed.
    - intros r'. by left. }
  split; [exact (Hfr r)|]. split.
  - intros k Hk. destruct (Hfr r) as [-> | [v ->]]; [done|].
    simpl. by rewrite lookup_insert_ne.
  - intros Hno. by apply sequential_loop_keeps_other_references.
Qed.

(** *** What the workflows leave in the registry *)

Lemma sequential_step_runs_agents : runs_agents sequential_step.
Proof.
  intros i t w. sequential_step_cases i t w; [|done]. simpl. by eexists.
Qed.

Lemma parallel_step_runs_agents : runs_agents parallel_step.
Proof.
  intros i t w.
  destruct (wf_agents w !! ti_agent_name t) as [agent|] eqn:E.
  - rewrite (parallel_step_registered i t w agent E). simpl. by eexists.
  - by rewrite (parallel_step_unregistered i t w E).
Qed.

Lemma run_final_status ag task context :
  exists s,
    (s = COMPLETED \/ s = FAILED)
    /\ (run ag task context).1 = with_status s ag.
Proof.
  destruct (run_exits ag task context)
    as [(r & _ & ->) | (e & _ & ->)]; eexists; eauto.
Qed.

Section RunsAgents.
Variable step : nat -> TaskInfo -> Workflow -> Workflow.
Hypothesis Hstep : runs_agents step.
Variable registry : gmap string BaseAgent.

Lemma step_tracks i t w :
  tracks registry (wf_agents w) -> tracks registry (wf_agents (step i t w)).
Proof.
  intros Htr. specialize (Hstep i t w). pose proof (Htr (ti_agent_name t)) as Hn.
  destruct (wf_agents w !! ti_agent_name t) as [agent|] eqn:E.
  - destruct Hstep as [context ->].
    destruct (registry !! ti_agent_name t) as [a|] eqn:Er; [|done].
    destruct Hn as [s [= ->]]. by apply tracks_run.
  - by rewrite Hstep.
Qed.

Lemma step_has_run i t w n :
  tracks registry (wf_agents w) ->
  has_run registry (wf_agents w) n ->
  has_run registry (wf_agents (step i t w)) n.
Proof.
  intros Htr (s & a & Hs & Hr & Ha). specialize (Hstep i t w).
  destruct (wf_agents w !! ti_agent_name t) as [agent|] eqn:E.
  - destruct Hstep as [context ->].
    destruct (decide (n = ti_agent_name t)) as [->|Hne].
    + rewrite Ha in E. injection E as <-.
      destruct (run_final_status (with_status s a) (ti_task t) (Some context))
        as (s' & Hs' & ->).
      exists s', a. split; [done|]. split; [done|].
      by rewrite lookup_insert_eq.
    + exists s, a. split; [done|]. split; [done|].
      by rewrite lookup_insert_ne.
  - rewrite Hstep. by exists s, a.
Qed.

Lemma step_runs_named i t w a :
  tracks registry (wf_agents w) ->
  registry !! ti_agent_name t = Some a ->
  has_run registry (wf_agents (step i t w)) (ti_agent_name t).
Proof.
  intros Htr Hr. specialize (Hstep i t w).
  pose proof (Htr (ti_agent_name t)) as Hn. rewrite Hr in Hn.
  destruct Hn as [s Hs]. rewrite Hs in Hstep.
  destruct Hstep as [context ->].
  destruct (run_final_status (with_status s a) (ti_task t) (Some context))
    as (s' & Hs' & ->).
  exists s', a. split; [done|]. split; [done|].
  by rewrite lookup_insert_eq.
Qed.

Lemma step_keeps_unnamed i t w n :
  n <> ti_agent_name t ->
  wf_agents (step i t w) !! n = wf_agents w !! n.
Proof.
  intros Hne. specialize (Hstep i t w).
  destruct (wf_agents w !! ti_agent_name t) as [agent|].
  - destruct Hstep as [context ->]. by rewrite lookup_insert_ne.
  - by rewrite Hstep.
Qed.

Lemma loop_tracks tasks i w :
  tracks registry (wf_agents w) ->
  tracks registry (wf_agents (for_enumerate step i tasks w)).
Proof.
  apply (for_enumerate_invariant (fun w => tracks registry (wf_agents w))).
  intros j x s. apply step_tracks.
Qed.

Lemma loop_has_run tasks : forall i w n,
  tracks registry (wf_agents w) ->
  has_run registry (wf_agents w) n ->
  has_run registry (wf_agents (for_enumerate step i tasks w)) n.
Proof.
  induction tasks as [|t tasks IH]; intros i w n Htr Hn; simpl; [done|].
  apply IH; [by apply step_tracks|by apply step_has_run].
Qed.

Lemma loop_keeps_unnamed tasks : forall i w n,
  n ∉ (ti_agent_name <$> tasks) ->
  wf_agents (for_enumerate step i tasks w) !! n = wf_agents w !! n.
Proof.
  induction tasks as [|t tasks IH]; intros i w n Hn; simpl; [done|].
  rewrite fmap_cons, not_elem_of_cons in Hn. destruct Hn as [Hne Hn].
  rewrite IH by done. by apply step_keeps_unnamed.
Qed.

Lemma loop_runs_named tasks : forall i w t a,
  tracks registry (wf_agents w) ->
  t ∈ tasks ->
  registry !! ti_agent_name t = Some a ->
  has_run registry (wf_agents (for_enumerate step i tasks w))
    (ti_agent_name t).
Proof.
  induction tasks as [|t0 tasks IH]; intros i w t a Htr Ht Hr.
  - by apply elem_of_nil in Ht.
  - simpl. apply elem_of_cons in Ht as [->|Ht].
    + apply loop_has_run; [by apply step_tracks|].
      by apply (step_runs_named i t0 w a).
    + apply (IH _ _ t a); [by apply step_tracks|done|done].
Qed.
End RunsAgents.

(** X21: what the workflows leave in the registry. After a sequential or
    a parallel workflow the registry holds the same agents under the same
    names, changed in their status only; an agent that no step names is
    exactly as before; and an agent that a step names is [COMPLETED] or
    [FAILED], never [RUNNING]. *)
Theorem workflow_changes_statuses_only orch store tasks w :
  w = execute_sequential_workflow orch store tasks
  \/ w = execute_parallel_workflow orch store tasks ->
  (forall n,
     match registered_agents orch !! n with
     | None => wf_agents w !! n = None
     | Some a => exists s, wf_agents w !! n = Some (with_status s a)
     end)
  /\ (forall n,
        n ∉ (ti_agent_name <$> tasks) ->
        wf_agents w !! n = registered_agents orch !! n)
  /\ (forall t a,
        t ∈ tasks ->
        registered_agents orch !! ti_agent_name t = Some a ->
        exists s,
          (s = COMPLETED \/ s = FAILED)
          /\ wf_agents w !! ti_agent_name t = Some (with_status s a)).
Proof.
  intros Hw.
  assert (exists step,
            runs_agents step
            /\ w = for_enumerate step 0 tasks (start_workflow orch store))
    as (step & Hstep & ->).
  { destruct Hw as [-> | ->].
    - exists sequential_step. split; [apply sequential_step_runs_agents|done].
    - exists parallel_step. split; [apply parallel_step_runs_agents|done]. }
  split; [|split].
  - apply (loop_tracks step Hstep (registered_agents orch)), tracks_refl.
  - intros n Hn. by rewrite (loop_keeps_unnamed step Hstep).
  - intros t a Ht Ha.
    destruct (loop_runs_named step Hstep (registered_agents orch) tasks 0
                (start_workflow orch store) t a (tracks_refl _) Ht Ha)
      as (s & a' & Hs & Hr & Hfinal).
    rewrite Ha in Hr. injection Hr as <-. by exists s.
Qed.

Lemma workflow_changes_statuses_only_witness :
  let w := execute_sequential_workflow demo_orchestrator demo_store
             tasks_with_unknown_agent in
  (forall n,
     match registered_agents demo_orchestrator !! n with
     | None => wf_agents w !! n = None
     | Some a => exists s, wf_agents w !! n = Some (with_status s a)
     end)
  /\ (forall n,
        n ∉ (ti_agent_name <$> tasks_with_unknown_agent) ->
        wf_agents w !! n = registered_agents demo_orchestrator !! n)
  /\ (forall t a,
        t ∈ tasks_with_unknown_agent ->
        registered_agents demo_orchestrator !! ti_agent_name t = Some a ->
        exists s,
          (s = COMPLETED \/ s = FAILED)
          /\ wf_agents w !! ti_agent_name t = Some (with_status s a)).
Proof.
  intros w.
  apply (workflow_changes_statuses_only demo_orchestrator demo_store
           tasks_with_unknown_agent w).
  left. reflexivity.
Defined.

(** ** The web search tool *)

Lemma simulated_results_length query num_results :
  Z.of_nat (length (simulated_result query
                    <$> seq 0 (Z.to_nat (Z.min num_results 5))))
  = Z.max 0 (Z.min num_results 5).
Proof. rewrite length_fmap, length_seq. lia. Qed.

(** X22: search without a configured service. When the key or the engine
    id is missing or empty, [search] makes no request: it returns the
    simulated answer, with status ["success"] and the flag ["simulated"].
    The answer has [min(num_results, 5)] results, none when that is not
    positive, its ["num_results"] entry is the number of results, and the
    result at position [i] is titled ["Result <i+1> for '<query>'"]. *)
Theorem unconfigured_search_is_simulated service tool query num_results :
  truthy (api_key tool) && truthy (search_engine_id tool) = false ->
  exists results,
    dict_get "results" (search service tool query num_results)
    = Some (PyList results)
    /\ dict_get "num_results" (search service tool query num_results)
       = Some (PyInt (Z.of_nat (length results)))
    /\ Z.of_nat (length results) = Z.max 0 (Z.min num_results 5)
    /\ dict_get "status" (search service tool query num_results)
       = Some (PyStr "success")
    /\ dict_get "simulated" (search service tool query num_results)
       = Some (PyBool true)
    /\ dict_get "query" (search service tool query num_results)
       = Some (PyStr query)
    /\ forall i,
         (i < length results)%nat ->
         exists item,
           results !! i = Some item
           /\ dict_get "title" item
              = Some (PyStr ("Result " +:+ pretty (S i) +:+ " for '"
                             +:+ query +:+ "'"))
           /\ dict_get "link" item
              = Some (PyStr ("https://example.com/result-" +:+ pretty (S i))).
Proof.
  intros Hcfg. unfold search. rewrite Hcfg. unfold _simulated_search.
  cbv zeta.
  exists (simulated_result query <$> seq 0 (Z.to_nat (Z.min num_results 5))).
  split; [done|]. split; [done|].
  split; [apply simulated_results_length|].
  split; [done|]. split; [done|]. split; [done|].
  intros i Hi. rewrite length_fmap, length_seq in Hi.
  exists (simulated_result query i). split; [|done].
  rewrite list_lookup_fmap, lookup_seq_lt by done. done.
Qed.

Lemma unconfigured_search_is_simulated_witness :
  exists results,
    dict_get "results"
      (search unreachable_service
         (new_WebSearchTool (Some "key") None None (Some "")) "rocq" 7)
    = Some (PyList results)
    /\ dict_get "num_results"
         (search unreachable_service
            (new_WebSearchTool (Some "key") None None (Some "")) "rocq" 7)
       = Some (PyInt (Z.of_nat (length results)))
    /\ Z.of_nat (length results) = Z.max 0 (Z.min 7 5)
    /\ dict_get "status"
         (search unreachable_service
            (new_WebSearchTool (Some "key") None None (Some "")) "rocq" 7)
       = Some (PyStr "success")
    /\ dict_get "simulated"
         (search unreachable_service
            (new_WebSearchTool (Some "key") None None (Some "")) "rocq" 7)
       = Some (PyBool true)
    /\ dict_get "query"
         (search unreachable_service
            (new_WebSearchTool (Some "key") None None (Some "")) "rocq" 7)
       = Some (PyStr "rocq")
    /\ forall i,
         (i < length results)%nat ->
         exists item,
           results !! i = Some item
           /\ dict_get "title" item
              = Some (PyStr ("Result " +:+ pretty (S i) +:+ " for '"
                             +:+ "rocq" +:+ "'"))
           /\ dict_get "link" item
              = Some (PyStr ("https://example.com/result-" +:+ pretty (S i))).
Proof.
  apply (unconfigured_search_is_simulated unreachable_service
           (new_WebSearchTool (Some "key") None None (Some "")) "rocq" 7).
  reflexivity.
Defined.

(** ** The researcher *)

Lemma _format_research_prompt_no_context render_items task :
  _format_research_prompt render_items task None
  = "Research Task: " +:+ task +:+ newline +:+ newline
    +:+ research_instructions.
Proof.
  unfold _format_research_prompt. cbv zeta. by rewrite !string_app_assoc.
Qed.

Lemma researcher_run_try ag render_items budget task :
  methods ag = ResearcherAgent_methods render_items budget ->
  run_try ag task None
  = match generate_with_tools budget (set_status RUNNING (self ag))
            ("Research Task: " +:+ task +:+ newline +:+ newline
             +:+ research_instructions) with
    | (_, Some response) => Returns response
    | (_, None) => Raises turn_budget_exceeded
    end.
Proof.
  intros Hm. unfold run_try. rewrite Hm. simpl.
  rewrite _format_research_prompt_no_context.
  by destruct (generate_with_tools _ _ _) as [sent [r|]].
Qed.

Lemma generate_with_tools_failed_content fuel st prompt sent g :
  generate_with_tools fuel st prompt = (sent, Some g) ->
  status g = FAILED ->
  content g = "" /\ tool_calls g = [].
Proof.
  unfold generate_with_tools.
  destruct (model st) as [gm|].
  - destruct (generate_try fuel st gm prompt)
      as [sent' [final recs|e recs|recs|]]; intros [= <- <-]; by simpl.
  - by intros [= <- <-].
Qed.

(** X23: [search_and_summarize] returns the model's answer. When the
    model answers the research prompt for the query without asking for a
    tool, the returned text is the text of that answer, and the agent is
    left [COMPLETED]. The prompt sent is ["Research Task: "], the task
    ["Search for and summarize information about: <query> (consider top
    <n> results)"], and the research instructions, with no context
    section. *)
Theorem search_and_summarize_returns_answer
    ag render_items budget gm query num_results response :
  methods ag = ResearcherAgent_methods render_items budget ->
  model (self ag) = Some gm ->
  gm [first_message (self ag)
        ("Research Task: "
         +:+ ("Search for and summarize information about: " +:+ query
              +:+ " (consider top " +:+ pretty num_results +:+ " results)")
         +:+ newline +:+ newline +:+ research_instructions)]
  = Returns response ->
  ends_conversation response ->
  0 < budget ->
  search_and_summarize ag query num_results
  = (with_status COMPLETED ag, final_text response).
Proof.
  intros Hmeth Hm Hgm Hend Hb. unfold search_and_summarize. cbv zeta.
  rewrite (run_returns ag _ None
             {| agent_name := name (config (self ag));
                content := final_text response; status := COMPLETED;
                metadata := generation_metadata (self ag);
                tool_calls := []; error := None |}); [done|].
  rewrite (researcher_run_try ag render_items budget _ Hmeth).
  unfold generate_with_tools. simpl model. rewrite Hm.
  rewrite (generate_with_tools_first_reply budget _ gm _ response)
    by done.
  destruct budget as [|budget]; [lia|]. by rewrite tool_loop_ends.
Qed.

Lemma search_and_summarize_returns_answer_witness :
  search_and_summarize (researcher_with answering_model) "Rocq" 5
  = (with_status COMPLETED (researcher_with answering_model),
     final_text (answer "Rocq is a proof assistant.")).
Proof.
  apply (search_and_summarize_returns_answer
           (researcher_with answering_model) (fun _ => "") 8 answering_model
           "Rocq" 5 (answer "Rocq is a proof assistant.")).
  - reflexivity.
  - reflexivity.
  - reflexivity.
  - eexists _, _. split; [reflexivity|]. right. by eexists _, _.
  - lia.
Defined.

(** X24: [search_and_summarize] hides failures. Whenever the generation
    for the query fails (no model, a model call that raises, a reply
    without candidates), the returned text is the empty string and the
    agent is nevertheless left [COMPLETED]: nothing of the error reaches
    the caller. *)
Theorem search_and_summarize_hides_failure
    ag render_items budget query num_results sent g :
  methods ag = ResearcherAgent_methods render_items budget ->
  generate_with_tools budget (set_status RUNNING (self ag))
    ("Research Task: "
     +:+ ("Search for and summarize information about: " +:+ query
          +:+ " (consider top " +:+ pretty num_results +:+ " results)")
     +:+ newline +:+ newline +:+ research_instructions)
  = (sent, Some g) ->
  status g = FAILED ->
  search_and_summarize ag query num_results
  = (with_status COMPLETED ag, "").
Proof.
  intros Hmeth Hgen Hfailed. unfold search_and_summarize. cbv zeta.
  destruct (generate_with_tools_failed_content _ _ _ _ _ Hgen Hfailed)
    as [Hcontent _].
  rewrite (run_returns ag _ None g); [by rewrite Hcontent|].
  rewrite (researcher_run_try ag render_items budget _ Hmeth).
  by rewrite Hgen.
Qed.

Lemma search_and_summarize_hides_failure_witness :
  search_and_summarize limited_researcher "Rocq" 5
  = (with_status COMPLETED limited_researcher, "").
Proof.
  apply (search_and_summarize_hides_failure limited_researcher
           (fun _ => "") 8 "Rocq" 5 []
           (failed_response (set_status RUNNING (self limited_researcher))
              "Model not initialized"));
    reflexivity.
Defined.
